(** * OpenCog nodes of cogn8n: AtomSpace and ReasoningEngine

    A shallow embedding of
    [packages/nodes-base/nodes/OpenCog/AtomSpace/AtomSpace.node.ts] and of
    [packages/nodes-base/nodes/OpenCog/ReasoningEngine/ReasoningEngine.node.ts],
    and the properties of the knowledge-store / inference-engine
    specification stated over it.

    Both nodes are simulations: every method reads its node parameters,
    draws from [Math.random()] and the clock, and builds a result object.
    The two effects are threaded explicitly through a [World]. *)

From Stdlib Require Import QArith Qround ZArith List String Bool Lia Lqa.
From Stdlib Require Import DecimalString DecimalNat Sorted Permutation.
Import ListNotations.

Local Open Scope string_scope.
Local Open Scope Q_scope.

(* ===================================================================== *)
(** * JavaScript values and effects used by the nodes *)
(* ===================================================================== *)

Module JS.

(** A JavaScript [number].  A finite double is represented by a rational.
    Comparison, [Math.min], [Math.max] and truthiness, which is all the
    nodes do with the numbers they are given, are exact on doubles; the
    decimal literals of the source ([0.7], [0.3], ...) and the products
    [Math.random() * 5] and [Math.random() * 10] are read as the
    rationals they spell, without the rounding to the nearest double.
    [Fin 0] stands for both [0] and [-0]. *)
Inductive number : Type :=
| NaN
| NegInf
| Fin (q : Q)
| PosInf.

Definition num_of_nat (n : nat) : number := Fin (inject_Z (Z.of_nat n)).
Definition num_of_Z (z : Z) : number := Fin (inject_Z z).

(** [a < b] on finite numbers; [b > a] is the same test. *)
Definition Qltb (a b : Q) : bool := negb (Qle_bool b a).

(** [a < b] *)
Definition num_lt (a b : number) : bool :=
  match a, b with
  | NaN, _ | _, NaN => false
  | _, NegInf => false
  | NegInf, _ => true
  | PosInf, _ => false
  | Fin _, PosInf => true
  | Fin x, Fin y => Qltb x y
  end.

(** [a >= b]: false as soon as one side is [NaN], otherwise [!(a < b)]. *)
Definition num_ge (a b : number) : bool :=
  match a, b with
  | NaN, _ | _, NaN => false
  | _, _ => negb (num_lt a b)
  end.

(** [a <= b] *)
Definition num_le (a b : number) : bool := num_ge b a.

(** [Math.min(a, b)] *)
Definition Math_min (a b : number) : number :=
  match a, b with
  | NaN, _ | _, NaN => NaN
  | _, _ => if num_lt b a then b else a
  end.

(** [Math.max(a, b)] *)
Definition Math_max (a b : number) : number :=
  match a, b with
  | NaN, _ | _, NaN => NaN
  | _, _ => if num_lt a b then b else a
  end.

(** Truthiness of a number: [0], [-0] and [NaN] are falsy. *)
Definition truthy (n : number) : bool :=
  match n with
  | NaN => false
  | Fin q => negb (Qeq_bool q 0)
  | NegInf | PosInf => true
  end.

(** [x || d] where [x] is a numeric property that may be absent
    ([undefined], which is falsy). *)
Definition or_default (x : option number) (d : number) : number :=
  match x with
  | Some n => if truthy n then n else d
  | None => d
  end.

(** [x !== false] for a boolean property that may be absent. *)
Definition not_false (x : option bool) : bool :=
  match x with
  | Some false => false
  | _ => true
  end.

(** Numbers up to the identification of equal rationals. *)
Definition num_eq (a b : number) : Prop :=
  match a, b with
  | Fin x, Fin y => x == y
  | NaN, NaN | NegInf, NegInf | PosInf, PosInf => True
  | _, _ => False
  end.

(** Template literal [`${n}`] of a non-negative integer. *)
Definition show_nat (n : nat) : string := NilEmpty.string_of_uint (Nat.to_uint n).

(** [arr.push(x)] *)
Definition push {A : Type} (arr : list A) (x : A) : list A := arr ++ [x].

(** ** The world: random source and clock

    [Math.random()] returns the next draw of an infinite sequence of
    doubles; [Date.now()] reads the clock in milliseconds. *)
Record World : Type := mkWorld {
  draws : nat -> Q;
  cursor : nat;
  clock : Z
}.

(** The contract of [Math.random()]: every draw lies in [[0, 1)]. *)
Definition unit_draws (w : World) : Prop :=
  forall n, 0 <= draws w n /\ draws w n < 1.

(** What running a piece of code yields: it returns a value, throws an
    [Error] with a message, or never returns. *)
Inductive outcome (A : Type) : Type :=
| Returned (a : A) (w : World)
| Thrown (message : string) (w : World)
| Diverged.
Arguments Returned {A} a w.
Arguments Thrown {A} message w.
Arguments Diverged {A}.

Definition Sim (A : Type) : Type := World -> outcome A.

Definition ret {A} (a : A) : Sim A := fun w => Returned a w.

Definition bind {A B} (m : Sim A) (k : A -> Sim B) : Sim B :=
  fun w =>
    match m w with
    | Returned a w' => k a w'
    | Thrown e w' => Thrown e w'
    | Diverged => Diverged
    end.

Definition throw {A} (message : string) : Sim A := fun w => Thrown message w.

(** [try { body } catch (error) { handler(error.message) }] *)
Definition try_catch {A} (body : Sim A) (handler : string -> Sim A) : Sim A :=
  fun w =>
    match body w with
    | Thrown e w' => handler e w'
    | r => r
    end.

Definition Math_random : Sim Q :=
  fun w => Returned (draws w (cursor w))
                    (mkWorld (draws w) (S (cursor w)) (clock w)).

Definition Date_now : Sim Z := fun w => Returned (clock w) w.

(** [Math.floor(x)] of a finite [x]. *)
Definition Math_floor (x : Q) : Z := Qfloor x.

(** Data carried by an input item; the nodes never look inside. *)
#[warnings="-register-all"]
Inductive Json : Type :=
| JNull
| JBool (b : bool)
| JNumber (n : number)
| JString (s : string)
| JArray (elements : list Json)
| JObject (members : list (string * Json)).

(** [new Date(ms).toISOString()], kept symbolic. *)
Inductive ISOString : Type := toISOString (ms : Z).

(** ** [for (let i = 0; i < bound; i++) body]

    The guard is tested before every iteration, as in the source.  The
    recursion is on a number of iterations that suffices for every bound
    but [Infinity], for which the loop never exits. *)
Definition loop_fuel (bound : number) : nat :=
  match bound with
  | Fin q => Z.to_nat (Qceiling q)
  | _ => O
  end.

Fixpoint for_from {S : Type} (fuel : nat) (i : nat) (bound : number)
         (body : nat -> S -> Sim S) (s : S) : Sim S :=
  if num_lt (num_of_nat i) bound then
    match fuel with
    | O => fun _ => Diverged
    | Datatypes.S fuel' =>
        bind (body i s) (fun s' => for_from fuel' (Datatypes.S i) bound body s')
    end
  else ret s.

Definition for_lt {S : Type} (bound : number) (body : nat -> S -> Sim S) (s : S) : Sim S :=
  for_from (loop_fuel bound) 0 bound body s.

(** ** Arithmetic

    Sums, differences and quotients are taken exactly on the finite
    numbers (the rounding of the double operation is not modelled) and
    follow IEEE 754 on [NaN] and the infinities. *)

(** [-a] *)
Definition num_neg (a : number) : number :=
  match a with
  | NaN => NaN
  | NegInf => PosInf
  | Fin q => Fin (- q)
  | PosInf => NegInf
  end.

(** [a + b] *)
Definition num_add (a b : number) : number :=
  match a, b with
  | NaN, _ | _, NaN => NaN
  | PosInf, NegInf | NegInf, PosInf => NaN
  | PosInf, _ | _, PosInf => PosInf
  | NegInf, _ | _, NegInf => NegInf
  | Fin x, Fin y => Fin (x + y)
  end.

(** [a - b] *)
Definition num_sub (a b : number) : number := num_add a (num_neg b).

(** [a / arr.length]: the divisor is a non-negative integer. *)
Definition num_div_length (a : number) (n : nat) : number :=
  match a with
  | NaN => NaN
  | PosInf => PosInf
  | NegInf => NegInf
  | Fin q =>
      match n with
      | O => if Qeq_bool q 0 then NaN
             else if Qltb 0 q then PosInf else NegInf
      | S _ => Fin (q / inject_Z (Z.of_nat n))
      end
  end.

(** ** [arr.sort(compare)]

    The sort is stable: [x] goes before [y] when [compare(x, y) < 0], and
    elements that compare equal keep their order.  For a comparator that
    orders the elements consistently the result is the one sorted stable
    rearrangement, computed here by insertion from the left. *)
Fixpoint sort_insert {A : Type} (compare : A -> A -> number) (x : A) (sorted : list A)
  : list A :=
  match sorted with
  | [] => [x]
  | y :: rest =>
      if num_lt (compare x y) (Fin 0) then x :: y :: rest
      else y :: sort_insert compare x rest
  end.

Definition Array_sort {A : Type} (compare : A -> A -> number) (arr : list A) : list A :=
  fold_left (fun sorted x => sort_insert compare x sorted) arr [].

End JS.

Import JS.

Declare Scope sim_scope.
Delimit Scope sim_scope with sim.
Notation "x <- m ;; k" := (bind m (fun x => k))
  (at level 61, m at next level, right associativity) : sim_scope.
Local Open Scope sim_scope.

(* ===================================================================== *)
(** * ReasoningEngine.node.ts *)
(* ===================================================================== *)

Module ReasoningEngine.

(** The [reasoningParams] fixed collection: [{ values: { maxSteps,
    confidenceThreshold, maxResults, useUncertainty } }], where the
    collection, its [values] and every field may be absent. *)
Record ParamValues : Type := mkParamValues {
  v_maxSteps : option number;
  v_confidenceThreshold : option number;
  v_maxResults : option number;
  v_useUncertainty : option bool
}.

Record ParamsCollection : Type := mkParamsCollection {
  values : option ParamValues
}.

(** The node parameters of one input item, as declared in
    [description.properties]. *)
Record NodeParameters : Type := mkNodeParameters {
  reasoningType : string;
  inputKnowledge : string;
  goalQuery : string;
  sourceDomain : string;
  targetDomain : string;
  timeWindow : string;
  reasoningParams : option ParamsCollection
}.

(** [IExecuteFunctions], as far as the reasoning methods use it:
    [context.getNodeParameter(name, itemIndex)]. *)
Record Context : Type := mkContext {
  getNodeParameter : nat -> NodeParameters
}.

Record Params : Type := mkParams {
  maxSteps : number;
  confidenceThreshold : number;
  maxResults : number;
  useUncertainty : bool
}.

(** [paramsCollection?.values || {}] *)
Definition values_or_empty (paramsCollection : option ParamsCollection) : ParamValues :=
  match paramsCollection with
  | Some c =>
      match values c with
      | Some v => v
      | None => mkParamValues None None None None
      end
  | None => mkParamValues None None None None
  end.

Definition getReasoningParams (context : Context) (itemIndex : nat) : Params :=
  let paramsCollection := reasoningParams (getNodeParameter context itemIndex) in
  let params := values_or_empty paramsCollection in
  {| maxSteps := or_default (v_maxSteps params) (Fin 10);
     confidenceThreshold := or_default (v_confidenceThreshold params) (Fin (7 # 10));
     maxResults := or_default (v_maxResults params) (Fin 10);
     useUncertainty := not_false (v_useUncertainty params) |}.

(** ** Forward chaining *)

Module Step.
Record t : Type := mk {
  stepNumber : nat;
  rule : string;
  premise : string;
  conclusion : string;
  confidence : number
}.
End Step.

Module Conclusion.
Record t : Type := mk {
  statement : string;
  confidence : number;
  derivation : string
}.
End Conclusion.

Module Forward.
Record t : Type := mk {
  reasoningType : string;
  inputKnowledge : string;
  steps : list Step.t;
  conclusions : list Conclusion.t;
  totalSteps : nat;
  validConclusions : nat;
  timestamp : ISOString
}.
End Forward.

(** One iteration of the loop of [performForwardChaining]. *)
Definition forward_body (params : Params) (i : nat)
           (acc : list Step.t * list Conclusion.t)
  : Sim (list Step.t * list Conclusion.t) :=
  let (steps, conclusions) := acc in
  r <- Math_random ;;
  let step :=
    {| Step.stepNumber := i + 1;
       Step.rule := "Rule_" ++ show_nat (i + 1);
       Step.premise := "Premise_" ++ show_nat (i + 1);
       Step.conclusion := "Conclusion_" ++ show_nat (i + 1);
       Step.confidence := Math_max (confidenceThreshold params) (Fin r) |} in
  let steps := push steps step in
  if num_ge (Step.confidence step) (confidenceThreshold params) then
    ret (steps,
         push conclusions
           {| Conclusion.statement := Step.conclusion step;
              Conclusion.confidence := Step.confidence step;
              Conclusion.derivation :=
                "Derived from " ++ Step.premise step ++ " using " ++ Step.rule step |})
  else ret (steps, conclusions).

Definition performForwardChaining (context : Context) (itemIndex : nat)
  : Sim Forward.t :=
  let inputKnowledge := inputKnowledge (getNodeParameter context itemIndex) in
  let params := getReasoningParams context itemIndex in
  acc <- for_lt (Math_min (maxSteps params) (Fin 5)) (forward_body params) ([], []) ;;
  let (steps, conclusions) := acc in
  now <- Date_now ;;
  ret {| Forward.reasoningType := "forwardChaining";
         Forward.inputKnowledge := inputKnowledge;
         Forward.steps := steps;
         Forward.conclusions := conclusions;
         Forward.totalSteps := List.length steps;
         Forward.validConclusions := List.length conclusions;
         Forward.timestamp := toISOString now |}.

(** ** Backward chaining *)

Inductive Status : Type := proven | unproven.

Definition is_proven (s : Status) : bool :=
  match s with proven => true | unproven => false end.

Module Subgoal.
Record t : Type := mk {
  goal : string;
  status : Status;
  confidence : number
}.
End Subgoal.

Module ProofStep.
Record t : Type := mk {
  step : nat;
  goal : string;
  proof : string;
  confidence : number
}.
End ProofStep.

Module Backward.
Record t : Type := mk {
  reasoningType : string;
  inputKnowledge : string;
  goalQuery : string;
  subgoals : list Subgoal.t;
  proofSteps : list ProofStep.t;
  goalProven : bool;
  overallConfidence : number;
  timestamp : ISOString
}.
End Backward.

(** One iteration of the loop of [performBackwardChaining]. *)
Definition backward_body (i : nat) (acc : list Subgoal.t * list ProofStep.t)
  : Sim (list Subgoal.t * list ProofStep.t) :=
  let (subgoals, proofSteps) := acc in
  r_status <- Math_random ;;
  r_confidence <- Math_random ;;
  let subgoal :=
    {| Subgoal.goal := "Subgoal_" ++ show_nat (i + 1);
       Subgoal.status := if Qltb (3 # 10) r_status then proven else unproven;
       Subgoal.confidence := Fin r_confidence |} in
  let subgoals := push subgoals subgoal in
  if is_proven (Subgoal.status subgoal) then
    ret (subgoals,
         push proofSteps
           {| ProofStep.step := i + 1;
              ProofStep.goal := Subgoal.goal subgoal;
              ProofStep.proof := "Proven by rule application";
              ProofStep.confidence := Subgoal.confidence subgoal |})
  else ret (subgoals, proofSteps).

(** [subgoals.filter(s => s.status === 'proven')
            .reduce((acc, s) => Math.min(acc, s.confidence), 1)] *)
Definition overall_confidence (subgoals : list Subgoal.t) : number :=
  fold_left (fun acc s => Math_min acc (Subgoal.confidence s))
            (filter (fun s => is_proven (Subgoal.status s)) subgoals)
            (Fin 1).

Definition performBackwardChaining (context : Context) (itemIndex : nat)
  : Sim Backward.t :=
  let inputKnowledge := inputKnowledge (getNodeParameter context itemIndex) in
  let goalQuery := goalQuery (getNodeParameter context itemIndex) in
  let params := getReasoningParams context itemIndex in
  acc <- for_lt (Math_min (maxSteps params) (Fin 3)) backward_body ([], []) ;;
  let (subgoals, proofSteps) := acc in
  let overallConfidence := overall_confidence subgoals in
  now <- Date_now ;;
  ret {| Backward.reasoningType := "backwardChaining";
         Backward.inputKnowledge := inputKnowledge;
         Backward.goalQuery := goalQuery;
         Backward.subgoals := subgoals;
         Backward.proofSteps := proofSteps;
         Backward.goalProven := num_ge overallConfidence (confidenceThreshold params);
         Backward.overallConfidence := overallConfidence;
         Backward.timestamp := toISOString now |}.

(** ** Temporal reasoning *)

Module TemporalFact.
Record t : Type := mk {
  fact : string;
  timestamp : ISOString;
  duration : string
}.
End TemporalFact.

Module TemporalRelation.
Record t : Type := mk {
  event1 : string;
  event2 : string;
  relation : string;
  confidence : number;
  type : string
}.
End TemporalRelation.

Module ConsistencyCheck.
Record t : Type := mk {
  isConsistent : bool;
  violations : list string;
  warnings : list string
}.
End ConsistencyCheck.

Module Prediction.
Record t : Type := mk {
  event : string;
  predictedTime : ISOString;
  confidence : number
}.
End Prediction.

Module Temporal.
Record t : Type := mk {
  reasoningType : string;
  inputKnowledge : string;
  timeWindow : string;
  temporalFacts : list TemporalFact.t;
  temporalRelations : list TemporalRelation.t;
  predictions : list Prediction.t;
  consistencyCheck : ConsistencyCheck.t;
  timestamp : ISOString
}.
End Temporal.

Definition performTemporalReasoning (context : Context) (itemIndex : nat)
  : Sim Temporal.t :=
  let inputKnowledge := inputKnowledge (getNodeParameter context itemIndex) in
  let timeWindow := timeWindow (getNodeParameter context itemIndex) in
  let params := getReasoningParams context itemIndex in
  t_a <- Date_now ;;
  t_b <- Date_now ;;
  let temporalFacts :=
    [ {| TemporalFact.fact := "Event_A occurred";
         TemporalFact.timestamp := toISOString (t_a - 3600000);
         TemporalFact.duration := "30 minutes" |};
      {| TemporalFact.fact := "Event_B occurred";
         TemporalFact.timestamp := toISOString t_b;
         TemporalFact.duration := "ongoing" |} ] in
  let temporalRelations :=
    [ {| TemporalRelation.event1 := "Event_A";
         TemporalRelation.event2 := "Event_B";
         TemporalRelation.relation := "before";
         TemporalRelation.confidence := Fin (95 # 100);
         TemporalRelation.type := "temporal_precedence" |} ] in
  r_consistent <- Math_random ;;
  let consistencyCheck :=
    {| ConsistencyCheck.isConsistent := Qltb (2 # 10) r_consistent;
       ConsistencyCheck.violations := [];
       ConsistencyCheck.warnings := [] |} in
  t_c <- Date_now ;;
  r_prediction <- Math_random ;;
  now <- Date_now ;;
  ret {| Temporal.reasoningType := "temporalReasoning";
         Temporal.inputKnowledge := inputKnowledge;
         Temporal.timeWindow := timeWindow;
         Temporal.temporalFacts := temporalFacts;
         Temporal.temporalRelations := temporalRelations;
         Temporal.predictions :=
           [ {| Prediction.event := "Future_Event_C";
                Prediction.predictedTime := toISOString (t_c + 3600000);
                Prediction.confidence := Fin r_prediction |} ];
         Temporal.consistencyCheck := consistencyCheck;
         Temporal.timestamp := toISOString now |}.

(** ** Abductive reasoning *)

Module AbductiveHypothesis.
Record t : Type := mk {
  hypothesis : string;
  explanation : string;
  plausibility : number;
  supportingEvidence : list string
}.
End AbductiveHypothesis.

Module Abductive.
Record t : Type := mk {
  reasoningType : string;
  observation : string;
  inputKnowledge : string;
  hypotheses : list AbductiveHypothesis.t;
  bestExplanation : option AbductiveHypothesis.t;
  timestamp : ISOString
}.
End Abductive.

(** One iteration of the loop of [performAbductiveReasoning]. *)
Definition abductive_body (goalQuery : string) (i : nat)
           (hypotheses : list AbductiveHypothesis.t)
  : Sim (list AbductiveHypothesis.t) :=
  r <- Math_random ;;
  ret (push hypotheses
         {| AbductiveHypothesis.hypothesis :=
              "Hypothesis_" ++ show_nat (i + 1) ++ ": Explains " ++ goalQuery;
            AbductiveHypothesis.explanation :=
              "This hypothesis explains the observation through...";
            AbductiveHypothesis.plausibility := Fin r;
            AbductiveHypothesis.supportingEvidence :=
              [ "Evidence_" ++ show_nat (i + 1) ++ "a";
                "Evidence_" ++ show_nat (i + 1) ++ "b" ] |}).

(** [(a, b) => b.plausibility - a.plausibility] *)
Definition by_plausibility (a b : AbductiveHypothesis.t) : number :=
  num_sub (AbductiveHypothesis.plausibility b) (AbductiveHypothesis.plausibility a).

Definition performAbductiveReasoning (context : Context) (itemIndex : nat)
  : Sim Abductive.t :=
  let inputKnowledge := inputKnowledge (getNodeParameter context itemIndex) in
  let goalQuery := goalQuery (getNodeParameter context itemIndex) in
  let params := getReasoningParams context itemIndex in
  generated <- for_lt (Math_min (maxResults params) (Fin 3)) (abductive_body goalQuery) [] ;;
  let hypotheses := Array_sort by_plausibility generated in
  now <- Date_now ;;
  ret {| Abductive.reasoningType := "abductiveReasoning";
         Abductive.observation := goalQuery;
         Abductive.inputKnowledge := inputKnowledge;
         Abductive.hypotheses := hypotheses;
         Abductive.bestExplanation := nth_error hypotheses 0;
         Abductive.timestamp := toISOString now |}.

(** ** Analogical reasoning *)

Module Analogy.
Record t : Type := mk {
  sourceElement : string;
  targetElement : string;
  similarity : number;
  mapping : list (string * string);
  confidence : number
}.
End Analogy.

Module AnalogicalPrediction.
Record t : Type := mk {
  prediction : string;
  confidence : number;
  basedOn : string
}.
End AnalogicalPrediction.

Module Analogical.
Record t : Type := mk {
  reasoningType : string;
  sourceDomain : string;
  targetDomain : string;
  analogies : list Analogy.t;
  predictions : list AnalogicalPrediction.t;
  structuralSimilarity : number;
  timestamp : ISOString
}.
End Analogical.

Definition performAnalogicalReasoning (context : Context) (itemIndex : nat)
  : Sim Analogical.t :=
  let sourceDomain := sourceDomain (getNodeParameter context itemIndex) in
  let targetDomain := targetDomain (getNodeParameter context itemIndex) in
  let params := getReasoningParams context itemIndex in
  s1 <- Math_random ;;
  c1 <- Math_random ;;
  s2 <- Math_random ;;
  c2 <- Math_random ;;
  let analogies :=
    [ {| Analogy.sourceElement := "Source_Element_1";
         Analogy.targetElement := "Target_Element_1";
         Analogy.similarity := Fin s1;
         Analogy.mapping := [ ("property1", "maps_to_property1");
                              ("property2", "maps_to_property2") ];
         Analogy.confidence := Fin c1 |};
      {| Analogy.sourceElement := "Source_Element_2";
         Analogy.targetElement := "Target_Element_2";
         Analogy.similarity := Fin s2;
         Analogy.mapping := [ ("property3", "maps_to_property3");
                              ("property4", "maps_to_property4") ];
         Analogy.confidence := Fin c2 |} ] in
  c3 <- Math_random ;;
  let predictions :=
    [ {| AnalogicalPrediction.prediction :=
           "Target domain will exhibit similar property X";
         AnalogicalPrediction.confidence := Fin c3;
         AnalogicalPrediction.basedOn := "Analogical mapping from source domain" |} ] in
  let structuralSimilarity :=
    num_div_length
      (fold_left (fun acc m => num_add acc (Analogy.similarity m)) analogies (Fin 0))
      (List.length analogies) in
  now <- Date_now ;;
  ret {| Analogical.reasoningType := "analogicalReasoning";
         Analogical.sourceDomain := sourceDomain;
         Analogical.targetDomain := targetDomain;
         Analogical.analogies := analogies;
         Analogical.predictions := predictions;
         Analogical.structuralSimilarity := structuralSimilarity;
         Analogical.timestamp := toISOString now |}.

(** ** Probabilistic reasoning *)

Module ProbabilisticFact.
Record t : Type := mk {
  fact : string;
  probability : number;
  dependencies : list string
}.
End ProbabilisticFact.

Module Inference.
Record t : Type := mk {
  statement : string;
  probability : number;
  derivedFrom : list string
}.
End Inference.

Module UncertaintyMetrics.
Record t : Type := mk {
  totalUncertainty : number;
  avgConfidence : number
}.
End UncertaintyMetrics.

Module Probabilistic.
Record t : Type := mk {
  reasoningType : string;
  inputKnowledge : string;
  probabilisticFacts : list ProbabilisticFact.t;
  inferences : list Inference.t;
  uncertaintyHandling : string;
  uncertaintyMetrics : UncertaintyMetrics.t;
  timestamp : ISOString
}.
End Probabilistic.

Definition performProbabilisticReasoning (context : Context) (itemIndex : nat)
  : Sim Probabilistic.t :=
  let inputKnowledge := inputKnowledge (getNodeParameter context itemIndex) in
  let params := getReasoningParams context itemIndex in
  p_a <- Math_random ;;
  p_b <- Math_random ;;
  let probabilisticFacts :=
    [ {| ProbabilisticFact.fact := "Fact_A";
         ProbabilisticFact.probability := Fin p_a;
         ProbabilisticFact.dependencies := [] |};
      {| ProbabilisticFact.fact := "Fact_B";
         ProbabilisticFact.probability := Fin p_b;
         ProbabilisticFact.dependencies := ["Fact_A"] |} ] in
  p_1 <- Math_random ;;
  p_2 <- Math_random ;;
  let inferences :=
    [ {| Inference.statement := "Probabilistic_Conclusion_1";
         Inference.probability := Fin p_1;
         Inference.derivedFrom := ["Fact_A"; "Fact_B"] |};
      {| Inference.statement := "Probabilistic_Conclusion_2";
         Inference.probability := Fin p_2;
         Inference.derivedFrom := ["Fact_B"] |} ] in
  let totalUncertainty :=
    num_div_length
      (fold_left (fun acc inf => num_add acc (num_sub (Fin 1) (Inference.probability inf)))
                 inferences (Fin 0))
      (List.length inferences) in
  let avgConfidence :=
    num_div_length
      (fold_left (fun acc inf => num_add acc (Inference.probability inf)) inferences (Fin 0))
      (List.length inferences) in
  now <- Date_now ;;
  ret {| Probabilistic.reasoningType := "probabilisticReasoning";
         Probabilistic.inputKnowledge := inputKnowledge;
         Probabilistic.probabilisticFacts := probabilisticFacts;
         Probabilistic.inferences := inferences;
         Probabilistic.uncertaintyHandling := "Bayesian inference";
         Probabilistic.uncertaintyMetrics :=
           {| UncertaintyMetrics.totalUncertainty := totalUncertainty;
              UncertaintyMetrics.avgConfidence := avgConfidence |};
         Probabilistic.timestamp := toISOString now |}.

(** ** execute *)

(** The methods of the node that [execute] looks up on [this]. *)
Inductive Method : Type :=
| PerformForwardChaining
| PerformBackwardChaining
| PerformAbductiveReasoning
| PerformAnalogicalReasoning
| PerformProbabilisticReasoning
| PerformTemporalReasoning.

Definition method_name (m : Method) : string :=
  match m with
  | PerformForwardChaining => "performForwardChaining"
  | PerformBackwardChaining => "performBackwardChaining"
  | PerformAbductiveReasoning => "performAbductiveReasoning"
  | PerformAnalogicalReasoning => "performAnalogicalReasoning"
  | PerformProbabilisticReasoning => "performProbabilisticReasoning"
  | PerformTemporalReasoning => "performTemporalReasoning"
  end.

(** [this] in [execute]: the input items, the node parameters the
    reasoning methods read, the continue-on-fail setting, and which of the
    node's methods [this] carries.  [execute] reaches them as
    [(this as any).performForwardChaining(this, i)]: a [this] built from
    the node carries them all, while the mock of the node's tests, which
    holds [getInputData], [getNodeParameter] and [continueOnFail] only,
    carries none. *)
Record ExecuteFunctions : Type := mkExecuteFunctions {
  getInputData : list Json;
  parameters : Context;
  continueOnFail : bool;
  carries : Method -> bool
}.

(** [(this as any).m(this, i)]: the node's method [m] when [this]
    carries it, and otherwise the [TypeError] of calling [undefined],
    whose message is given in the wording of V8. *)
Definition call_method {A : Type} (this : ExecuteFunctions) (m : Method)
           (method : Context -> nat -> Sim A) (i : nat) : Sim A :=
  if carries this m then method (parameters this) i
  else throw ("this." ++ method_name m ++ " is not a function").

(** The [json] of an output item: the result object of the reasoning
    performed, or [{ error: message }]. *)
Inductive Result : Type :=
| OfForward (r : Forward.t)
| OfBackward (r : Backward.t)
| OfAbductive (r : Abductive.t)
| OfAnalogical (r : Analogical.t)
| OfProbabilistic (r : Probabilistic.t)
| OfTemporal (r : Temporal.t)
| OfError (error : string).

Record ExecutionData : Type := mkExecutionData {
  json : Result;
  pairedItem : nat
}.

(** The [switch (reasoningType)] of [execute]. *)
Definition dispatch (this : ExecuteFunctions) (i : nat) (reasoningType : string)
  : Sim Result :=
  if (reasoningType =? "forwardChaining")%string then
    r <- call_method this PerformForwardChaining performForwardChaining i ;;
    ret (OfForward r)
  else if (reasoningType =? "backwardChaining")%string then
    r <- call_method this PerformBackwardChaining performBackwardChaining i ;;
    ret (OfBackward r)
  else if (reasoningType =? "abductiveReasoning")%string then
    r <- call_method this PerformAbductiveReasoning performAbductiveReasoning i ;;
    ret (OfAbductive r)
  else if (reasoningType =? "analogicalReasoning")%string then
    r <- call_method this PerformAnalogicalReasoning performAnalogicalReasoning i ;;
    ret (OfAnalogical r)
  else if (reasoningType =? "probabilisticReasoning")%string then
    r <- call_method this PerformProbabilisticReasoning performProbabilisticReasoning i ;;
    ret (OfProbabilistic r)
  else if (reasoningType =? "temporalReasoning")%string then
    r <- call_method this PerformTemporalReasoning performTemporalReasoning i ;;
    ret (OfTemporal r)
  else throw ("Unknown reasoning type: " ++ reasoningType).

(** One iteration of the loop of [execute] over the input items. *)
Definition execute_body (this : ExecuteFunctions) (i : nat)
           (returnData : list ExecutionData)
  : Sim (list ExecutionData) :=
  let reasoningType := reasoningType (getNodeParameter (parameters this) i) in
  try_catch
    (result <- dispatch this i reasoningType ;;
     ret (push returnData {| json := result; pairedItem := i |}))
    (fun message =>
       if continueOnFail this then
         ret (push returnData {| json := OfError message; pairedItem := i |})
       else throw message).

Definition execute (this : ExecuteFunctions) : Sim (list (list ExecutionData)) :=
  let items := getInputData this in
  returnData <- for_lt (num_of_nat (List.length items)) (execute_body this) [] ;;
  ret [returnData].

End ReasoningEngine.

(* ===================================================================== *)
(** * AtomSpace.node.ts *)
(* ===================================================================== *)

Module AtomSpace.

(** A truth value object; either property may be missing, as in the
    default [{ values: {} }] of the [truthValue] collection. *)
Module TruthValue.
Record t : Type := mk {
  strength : option number;
  confidence : option number
}.
End TruthValue.

Record TruthValueParam : Type := mkTruthValueParam {
  values : option TruthValue.t
}.

(** The node parameters of one input item, as declared in
    [description.properties]. *)
Record NodeParameters : Type := mkNodeParameters {
  operation : string;
  atomType : string;
  atomName : string;
  truthValue : option TruthValueParam;
  pattern : string;
  maxResults : number
}.

(** [IExecuteFunctions], as far as the node uses it.  [getInputData] is
    the list of the input items, each given by the JSON data it carries. *)
Record Context : Type := mkContext {
  getInputData : list Json;
  getNodeParameter : nat -> NodeParameters;
  continueOnFail : bool
}.

(** [truthValueParam?.values || { strength: 0.8, confidence: 0.9 }];
    an object, even the empty one, is truthy. *)
Definition values_or_default (truthValueParam : option TruthValueParam) : TruthValue.t :=
  let default :=
    {| TruthValue.strength := Some (Fin (8 # 10));
       TruthValue.confidence := Some (Fin (9 # 10)) |} in
  match truthValueParam with
  | Some p =>
      match values p with
      | Some v => v
      | None => default
      end
  | None => default
  end.

(** [{ strength: Math.random(), confidence: Math.random() }] *)
Definition random_truth_value : Sim TruthValue.t :=
  s <- Math_random ;;
  c <- Math_random ;;
  ret {| TruthValue.strength := Some (Fin s);
         TruthValue.confidence := Some (Fin c) |}.

(** ** addAtom *)

(** [`atom_${Date.now()}_${Math.random().toString(36).substr(2, 9)}`],
    kept symbolic in the clock reading and the draw. *)
Inductive GeneratedId : Type := atom_ (now : Z) (r : Q).

Module AddAtom.
Record t : Type := mk {
  operation : string;
  atomId : GeneratedId;
  atomType : string;
  atomName : string;
  truthValue : TruthValue.t;
  timestamp : ISOString;
  success : bool
}.
End AddAtom.

Definition addAtom (context : Context) (itemIndex : nat) : Sim AddAtom.t :=
  let atomType := atomType (getNodeParameter context itemIndex) in
  let atomName := atomName (getNodeParameter context itemIndex) in
  let truthValueParam := truthValue (getNodeParameter context itemIndex) in
  let truthValue := values_or_default truthValueParam in
  t <- Date_now ;;
  r <- Math_random ;;
  let atomId := atom_ t r in
  now <- Date_now ;;
  ret {| AddAtom.operation := "addAtom";
         AddAtom.atomId := atomId;
         AddAtom.atomType := atomType;
         AddAtom.atomName := atomName;
         AddAtom.truthValue := truthValue;
         AddAtom.timestamp := toISOString now;
         AddAtom.success := true |}.

(** ** queryAtoms *)

Module QueryHit.
Record t : Type := mk {
  atomId : string;
  atomType : string;
  atomName : string;
  truthValue : TruthValue.t
}.
End QueryHit.

Module QueryAtoms.
Record t : Type := mk {
  operation : string;
  query : string;
  results : list QueryHit.t;
  totalCount : nat
}.
End QueryAtoms.

Definition query_body (atomName : string) (i : nat) (results : list QueryHit.t)
  : Sim (list QueryHit.t) :=
  tv <- random_truth_value ;;
  ret (push results
         {| QueryHit.atomId := "atom_" ++ show_nat i ++ "_" ++ atomName;
            QueryHit.atomType := "ConceptNode";
            QueryHit.atomName := atomName ++ "_" ++ show_nat i;
            QueryHit.truthValue := tv |}).

Definition queryAtoms (context : Context) (itemIndex : nat) : Sim QueryAtoms.t :=
  let atomName := atomName (getNodeParameter context itemIndex) in
  let maxResults := maxResults (getNodeParameter context itemIndex) in
  r <- Math_random ;;
  let numResults := Math_min maxResults (num_of_Z (Math_floor (r * 10) + 1)) in
  results <- for_lt numResults (query_body atomName) [] ;;
  ret {| QueryAtoms.operation := "queryAtoms";
         QueryAtoms.query := atomName;
         QueryAtoms.results := results;
         QueryAtoms.totalCount := List.length results |}.

(** ** patternMatch *)

Module Match.
Record t : Type := mk {
  matchId : string;
  bindings : list (string * string);
  truthValue : TruthValue.t
}.
End Match.

Module PatternMatch.
Record t : Type := mk {
  operation : string;
  pattern : string;
  matches : list Match.t;
  matchCount : nat
}.
End PatternMatch.

Definition match_body (i : nat) (matches : list Match.t) : Sim (list Match.t) :=
  tv <- random_truth_value ;;
  ret (push matches
         {| Match.matchId := "match_" ++ show_nat i;
            Match.bindings := [ ("$X", "Entity_" ++ show_nat i);
                                ("$Y", "Property_" ++ show_nat i) ];
            Match.truthValue := tv |}).

Definition patternMatch (context : Context) (itemIndex : nat) : Sim PatternMatch.t :=
  let pattern := pattern (getNodeParameter context itemIndex) in
  let maxResults := maxResults (getNodeParameter context itemIndex) in
  r <- Math_random ;;
  let numMatches := Math_min maxResults (num_of_Z (Math_floor (r * 5) + 1)) in
  matches <- for_lt numMatches match_body [] ;;
  ret {| PatternMatch.operation := "patternMatch";
         PatternMatch.pattern := pattern;
         PatternMatch.matches := matches;
         PatternMatch.matchCount := List.length matches |}.

(** ** getTruthValue and setTruthValue *)

Module GetTruthValue.
Record t : Type := mk {
  operation : string;
  atomName : string;
  truthValue : TruthValue.t;
  exists_ : bool
}.
End GetTruthValue.

Definition getTruthValue (context : Context) (itemIndex : nat) : Sim GetTruthValue.t :=
  let atomName := atomName (getNodeParameter context itemIndex) in
  tv <- random_truth_value ;;
  ret {| GetTruthValue.operation := "getTruthValue";
         GetTruthValue.atomName := atomName;
         GetTruthValue.truthValue := tv;
         GetTruthValue.exists_ := true |}.

Module SetTruthValue.
Record t : Type := mk {
  operation : string;
  atomName : string;
  oldTruthValue : TruthValue.t;
  newTruthValue : TruthValue.t;
  success : bool
}.
End SetTruthValue.

Definition setTruthValue (context : Context) (itemIndex : nat) : Sim SetTruthValue.t :=
  let atomName := atomName (getNodeParameter context itemIndex) in
  let truthValueParam := truthValue (getNodeParameter context itemIndex) in
  let truthValue := values_or_default truthValueParam in
  old <- random_truth_value ;;
  ret {| SetTruthValue.operation := "setTruthValue";
         SetTruthValue.atomName := atomName;
         SetTruthValue.oldTruthValue := old;
         SetTruthValue.newTruthValue := truthValue;
         SetTruthValue.success := true |}.

(** ** execute *)

(** The [json] of an output item: the result object of the operation, or
    [{ error: message }]. *)
Inductive Result : Type :=
| OfAddAtom (r : AddAtom.t)
| OfQueryAtoms (r : QueryAtoms.t)
| OfPatternMatch (r : PatternMatch.t)
| OfGetTruthValue (r : GetTruthValue.t)
| OfSetTruthValue (r : SetTruthValue.t)
| OfError (error : string).

Record ExecutionData : Type := mkExecutionData {
  json : Result;
  pairedItem : nat
}.

(** The [switch (operation)] of [execute]. *)
Definition dispatch (context : Context) (i : nat) (operation : string) : Sim Result :=
  if (operation =? "addAtom")%string then
    r <- addAtom context i ;; ret (OfAddAtom r)
  else if (operation =? "queryAtoms")%string then
    r <- queryAtoms context i ;; ret (OfQueryAtoms r)
  else if (operation =? "patternMatch")%string then
    r <- patternMatch context i ;; ret (OfPatternMatch r)
  else if (operation =? "getTruthValue")%string then
    r <- getTruthValue context i ;; ret (OfGetTruthValue r)
  else if (operation =? "setTruthValue")%string then
    r <- setTruthValue context i ;; ret (OfSetTruthValue r)
  else throw ("Unknown operation: " ++ operation).

(** One iteration of the loop of [execute] over the input items. *)
Definition execute_body (context : Context) (i : nat) (returnData : list ExecutionData)
  : Sim (list ExecutionData) :=
  let operation := operation (getNodeParameter context i) in
  try_catch
    (result <- dispatch context i operation ;;
     ret (push returnData {| json := result; pairedItem := i |}))
    (fun message =>
       if continueOnFail context then
         ret (push returnData {| json := OfError message; pairedItem := i |})
       else throw message).

Definition execute (context : Context) : Sim (list (list ExecutionData)) :=
  let items := getInputData context in
  returnData <- for_lt (num_of_nat (List.length items)) (execute_body context) [] ;;
  ret [returnData].

End AtomSpace.

(* ===================================================================== *)
(** * Vocabulary of the stated properties *)
(* ===================================================================== *)

(** ** Counting loops *)

(** [n] is the number of iterations of [for (let i = 0; i < bound; i++)]:
    the first counter value at which the guard fails. *)
Definition trip_count (bound : number) (n : nat) : Prop :=
  num_lt (num_of_nat n) bound = false /\
  forall j, (j < n)%nat -> num_lt (num_of_nat j) bound = true.

(** ** Truth values *)

Definition opt_num_eq (a b : option number) : Prop :=
  match a, b with
  | Some x, Some y => num_eq x y
  | None, None => True
  | _, _ => False
  end.

(** Two truth values denote the same pair of numbers. *)
Definition tv_eq (a b : AtomSpace.TruthValue.t) : Prop :=
  opt_num_eq (AtomSpace.TruthValue.strength a) (AtomSpace.TruthValue.strength b) /\
  opt_num_eq (AtomSpace.TruthValue.confidence a) (AtomSpace.TruthValue.confidence b).

Definition in_unit_interval (x : option number) : Prop :=
  exists q, x = Some (Fin q) /\ 0 <= q /\ q <= 1.

(** A valid truth value: strength and confidence both in [[0, 1]]. *)
Definition valid_truth_value (t : AtomSpace.TruthValue.t) : Prop :=
  in_unit_interval (AtomSpace.TruthValue.strength t) /\
  in_unit_interval (AtomSpace.TruthValue.confidence t).

(** A caller running [setTruthValue] and, immediately after it,
    [getTruthValue] on the same item. *)
Definition set_then_get (context : AtomSpace.Context) (itemIndex : nat)
  : Sim (AtomSpace.SetTruthValue.t * AtomSpace.GetTruthValue.t) :=
  s <- AtomSpace.setTruthValue context itemIndex ;;
  g <- AtomSpace.getTruthValue context itemIndex ;;
  ret (s, g).

(** ** Arity of link kinds

    The arity each link kind requires of its outgoing list: two for
    inheritance and similarity links, two or more for evaluation links,
    any for the generic link.  The node declares no parameter for an
    outgoing list; the one accompanying a call is looked up in the data
    of the input item. *)
Definition arity_ok (atomType : string) (n : nat) : bool :=
  if (atomType =? "InheritanceLink")%string then (n =? 2)%nat
  else if (atomType =? "SimilarityLink")%string then (n =? 2)%nat
  else if (atomType =? "EvaluationLink")%string then (2 <=? n)%nat
  else true.

Fixpoint member (key : string) (members : list (string * Json)) : option Json :=
  match members with
  | [] => None
  | (k, v) :: rest => if (k =? key)%string then Some v else member key rest
  end.

Definition outgoing_of (context : AtomSpace.Context) (itemIndex : nat) : list Json :=
  match nth_error (AtomSpace.getInputData context) itemIndex with
  | Some (JObject members) =>
      match member "outgoing" members with
      | Some (JArray elements) => elements
      | _ => []
      end
  | _ => []
  end.

(** ** Pattern matching *)

(** The [k]-th match pushed by [patternMatch] when the draws are [d] and
    the cursor stood at [c] on entry. *)
Definition nth_match (d : nat -> Q) (c : nat) (k : nat) : AtomSpace.Match.t :=
  {| AtomSpace.Match.matchId := "match_" ++ show_nat k;
     AtomSpace.Match.bindings :=
       [ ("$X", "Entity_" ++ show_nat k); ("$Y", "Property_" ++ show_nat k) ];
     AtomSpace.Match.truthValue :=
       {| AtomSpace.TruthValue.strength := Some (Fin (d (c + (2 * k + 1))%nat));
          AtomSpace.TruthValue.confidence := Some (Fin (d (c + (2 * k + 2))%nat)) |} |}.

(** Loop invariant of [patternMatch]. *)
Definition match_inv (d : nat -> Q) (c : nat) (i : nat)
           (matches : list AtomSpace.Match.t) (w : World) : Prop :=
  draws w = d /\
  cursor w = (c + (2 * i + 1))%nat /\
  matches = map (nth_match d c) (seq 0 i).

(** ** Forward and backward chaining *)

(** Loop invariant of [performForwardChaining]. *)
Definition forward_inv (params : ReasoningEngine.Params) (i : nat)
           (acc : list ReasoningEngine.Step.t * list ReasoningEngine.Conclusion.t)
           (w : World) : Prop :=
  List.length (fst acc) = i /\
  List.length (snd acc) = i /\
  Forall (fun c => num_ge (ReasoningEngine.Conclusion.confidence c)
                          (ReasoningEngine.confidenceThreshold params) = true)
         (snd acc).

(** [m] is the minimum of the list [l]. *)
Definition is_minimum (m : number) (l : list number) : Prop :=
  In m l /\ forall c, In c l -> num_le m c = true.

(** The confidences of the subgoals whose status is [proven]. *)
Definition proven_confidences (subgoals : list ReasoningEngine.Subgoal.t) : list number :=
  map ReasoningEngine.Subgoal.confidence
      (filter (fun s => ReasoningEngine.is_proven (ReasoningEngine.Subgoal.status s))
              subgoals).

(** Loop invariant of [performBackwardChaining]: every confidence is one
    of the draws [d0]. *)
Definition backward_inv (d0 : nat -> Q) (i : nat)
           (acc : list ReasoningEngine.Subgoal.t * list ReasoningEngine.ProofStep.t)
           (w : World) : Prop :=
  draws w = d0 /\
  List.length (fst acc) = i /\
  Forall (fun s => exists n, ReasoningEngine.Subgoal.confidence s = Fin (d0 n)) (fst acc).

(** ** Temporal assertions in the input text *)

Fixpoint contains (needle haystack : string) : bool :=
  String.prefix needle haystack ||
  match haystack with
  | EmptyString => false
  | String _ rest => contains needle rest
  end.

(** The input knowledge asserts [event1 relation event2]. *)
Definition asserts (event1 relation event2 : string) (inputKnowledge : string) : bool :=
  contains (event1 ++ " " ++ relation ++ " " ++ event2) inputKnowledge.

(** ** Concrete inputs *)

(** A world in which every draw is [q]. *)
Definition world_const (q : Q) (cursor : nat) : World :=
  mkWorld (fun _ => q) cursor 0.


(** Three subgoals, all proven, of confidences [0.9], [0.6] and [0.8]:
    the draws alternate between the status draw [0.5] and a confidence. *)
Definition world_three_proven : World :=
  mkWorld (fun n => nth n [1 # 2; 9 # 10; 1 # 2; 6 # 10; 1 # 2; 8 # 10] (1 # 2)) 0 0.

(** Three subgoals of which only the first is proven, with confidence
    [0.2]: the first status draw is [0.5], the later draws are [0.1]. *)
Definition world_one_proven : World :=
  mkWorld (fun n => nth n [1 # 2; 2 # 10] (1 # 10)) 0 0.

Definition reasoning_context (inputKnowledge : string)
           (values : ReasoningEngine.ParamValues) : ReasoningEngine.Context :=
  ReasoningEngine.mkContext
    (fun _ =>
       ReasoningEngine.mkNodeParameters
         "forwardChaining" inputKnowledge "Prove C" "Source" "Target" "1h"
         (Some (ReasoningEngine.mkParamsCollection (Some values)))).

Definition atomspace_context (item : Json) (p : AtomSpace.NodeParameters)
  : AtomSpace.Context :=
  AtomSpace.mkContext [item] (fun _ => p) false.

(** [{ strength: 0.6, confidence: 0.7 }] *)
Definition tv_06_07 : AtomSpace.TruthValue.t :=
  {| AtomSpace.TruthValue.strength := Some (Fin (6 # 10));
     AtomSpace.TruthValue.confidence := Some (Fin (7 # 10)) |}.

Definition set_human_context : AtomSpace.Context :=
  atomspace_context
    (JObject [])
    (AtomSpace.mkNodeParameters
       "setTruthValue" "ConceptNode" "Human"
       (Some (AtomSpace.mkTruthValueParam (Some tv_06_07))) EmptyString (Fin 100)).

(** An inheritance link added with a one-element outgoing list. *)
Definition add_inheritance_context : AtomSpace.Context :=
  atomspace_context
    (JObject [("outgoing", JArray [JString "atom_human"])])
    (AtomSpace.mkNodeParameters
       "addAtom" "InheritanceLink" "Human-Animal"
       (Some (AtomSpace.mkTruthValueParam (Some tv_06_07))) EmptyString (Fin 100)).

Definition pattern_context (maxResults : number) : AtomSpace.Context :=
  atomspace_context
    (JObject [])
    (AtomSpace.mkNodeParameters
       "patternMatch" "ConceptNode" "Animal" None
       "(InheritanceLink (VariableNode $X) (ConceptNode Animal))" maxResults).

(* ===================================================================== *)
(** * Facts about numbers *)
(* ===================================================================== *)

Section NumberFacts.

Lemma Qltb_true (a b : Q) : Qltb a b = true <-> a < b.
Proof.
  unfold Qltb. rewrite negb_true_iff. split; intros H.
  - apply Qnot_le_lt. intros Hle. apply Qle_bool_iff in Hle. congruence.
  - destruct (Qle_bool b a) eqn:E; [|reflexivity].
    apply Qle_bool_iff in E. exfalso. exact (Qlt_not_le _ _ H E).
Qed.

Lemma Qltb_false (a b : Q) : Qltb a b = false <-> b <= a.
Proof.
  unfold Qltb. rewrite negb_false_iff. apply Qle_bool_iff.
Qed.

Lemma truthy_not_NaN (n : number) : truthy n = true -> n <> NaN.
Proof. destruct n; simpl; congruence. Qed.

Lemma truthy_not_zero (n : number) : truthy n = true -> ~ num_eq n (Fin 0).
Proof.
  destruct n; simpl; try tauto.
  intros H Hq. apply Qeq_bool_iff in Hq. rewrite Hq in H. discriminate.
Qed.

Lemma or_default_truthy (x : option number) (d : number) :
  truthy d = true -> truthy (or_default x d) = true.
Proof.
  intros Hd. destruct x as [n|]; simpl; [|exact Hd].
  destruct (truthy n) eqn:E; assumption.
Qed.

Lemma or_default_zero (q : Q) (d : number) :
  q == 0 -> or_default (Some (Fin q)) d = d.
Proof.
  intros Hq. simpl. apply Qeq_bool_iff in Hq. rewrite Hq. reflexivity.
Qed.

Lemma num_ge_refl (t : number) : t <> NaN -> num_ge t t = true.
Proof.
  destruct t; simpl; try congruence; try reflexivity.
  intros _. rewrite negb_true_iff. apply Qltb_false. apply Qle_refl.
Qed.

Lemma num_ge_trans (a b c : number) :
  num_ge a b = true -> num_ge b c = true -> num_ge a c = true.
Proof.
  destruct a as [| |qa|], b as [| |qb|], c as [| |qc|]; simpl;
    try discriminate; try reflexivity.
  rewrite !negb_true_iff. intros Hab Hbc.
  apply Qltb_false in Hab, Hbc. apply Qltb_false.
  eapply Qle_trans; eassumption.
Qed.

(** The value in force of a parameter is at least the supplied one when
    the default is positive. *)
Lemma or_default_ge_supplied (t : number) (d : Q) :
  t <> NaN -> 0 <= d -> num_ge (or_default (Some t) (Fin d)) t = true.
Proof.
  intros Ht Hd. simpl. destruct (truthy t) eqn:E.
  - apply num_ge_refl. exact Ht.
  - destruct t as [| |q|]; simpl in E; try discriminate; try congruence.
    apply negb_false_iff, Qeq_bool_iff in E.
    simpl. rewrite negb_true_iff. apply Qltb_false. rewrite E. exact Hd.
Qed.

(** [Math.max(t, r) >= t] unless [t] is [NaN]. *)
Lemma Math_max_ge_left (t : number) (r : Q) :
  t <> NaN -> num_ge (Math_max t (Fin r)) t = true.
Proof.
  intros Ht. destruct t as [| |q|]; simpl; try congruence; try reflexivity.
  destruct (Qltb q r) eqn:E; simpl; rewrite negb_true_iff; apply Qltb_false.
  - apply Qlt_le_weak. apply Qltb_true. exact E.
  - apply Qle_refl.
Qed.

Lemma num_lt_Math_min (a x b : number) :
  num_lt a (Math_min x b) = true -> num_lt a x = true /\ num_lt a b = true.
Proof.
  destruct a as [| |qa|], x as [| |qx|], b as [| |qb|]; simpl;
    try destruct (Qltb qb qx) eqn:E; simpl;
    try discriminate; intros H; split; try reflexivity; try exact H.
  - apply Qltb_true. apply Qltb_true in E, H. eapply Qlt_trans; eassumption.
  - apply Qltb_true. apply Qltb_false in E. apply Qltb_true in H.
    eapply Qlt_le_trans; eassumption.
Qed.

End NumberFacts.

(* ===================================================================== *)
(** * The counting loop *)
(* ===================================================================== *)

Section Loops.

Context {St : Type}.
Variable bound : number.
Variable body : nat -> St -> Sim St.
Variable Inv : nat -> St -> World -> Prop.

Hypothesis body_preserves :
  forall i s w,
    Inv i s w ->
    num_lt (num_of_nat i) bound = true ->
    exists s' w', body i s w = Returned s' w' /\ Inv (S i) s' w'.

Lemma for_from_invariant (fuel : nat) :
  forall i s w,
    num_lt (num_of_nat (i + fuel)) bound = false ->
    (forall j, (j < i)%nat -> num_lt (num_of_nat j) bound = true) ->
    Inv i s w ->
    exists n s' w',
      for_from fuel i bound body s w = Returned s' w' /\
      Inv n s' w' /\ trip_count bound n.
Proof.
  induction fuel as [|fuel IH]; intros i s w Hstop Hbelow Hinv; cbn [for_from];
    destruct (num_lt (num_of_nat i) bound) eqn:Hguard.
  - rewrite Nat.add_0_r in Hstop. congruence.
  - exists i, s, w. split; [reflexivity|]. split; [exact Hinv|]. split; assumption.
  - destruct (body_preserves i s w Hinv Hguard) as (s1 & w1 & Hbody & Hinv1).
    unfold bind. rewrite Hbody.
    apply IH; [ | | exact Hinv1].
    + replace (S i + fuel)%nat with (i + S fuel)%nat by lia. exact Hstop.
    + intros j Hj. destruct (Nat.eq_dec j i) as [->|Hne]; [exact Hguard|].
      apply Hbelow. lia.
  - exists i, s, w. split; [reflexivity|]. split; [exact Hinv|]. split; assumption.
Qed.

Lemma loop_fuel_enough :
  bound <> PosInf -> num_lt (num_of_nat (loop_fuel bound)) bound = false.
Proof.
  destruct bound as [| |q|]; simpl; try reflexivity; try congruence.
  intros _. apply Qltb_false.
  apply Qle_trans with (inject_Z (Qceiling q)); [apply Qle_ceiling|].
  rewrite <- Zle_Qle. lia.
Qed.

Lemma for_lt_invariant (s : St) (w : World) :
  bound <> PosInf ->
  Inv 0 s w ->
  exists n s' w',
    for_lt bound body s w = Returned s' w' /\ Inv n s' w' /\ trip_count bound n.
Proof.
  intros Hfin Hinv. unfold for_lt.
  apply for_from_invariant; [ | | exact Hinv].
  - apply loop_fuel_enough. exact Hfin.
  - intros j Hj. lia.
Qed.

End Loops.

Section TripCounts.

Lemma num_lt_nat (i j : nat) :
  num_lt (num_of_nat i) (num_of_nat j) = true <-> (i < j)%nat.
Proof.
  unfold num_of_nat. simpl. rewrite Qltb_true, <- Zlt_Qlt. lia.
Qed.

Lemma num_lt_eq_r (a b c : number) :
  num_eq b c -> num_lt a b = num_lt a c.
Proof.
  destruct a as [| |qa|], b as [| |qb|], c as [| |qc|]; simpl; try tauto.
  intros H. unfold Qltb. f_equal.
  destruct (Qle_bool qb qa) eqn:E1, (Qle_bool qc qa) eqn:E2; try reflexivity.
  - apply Qle_bool_iff in E1. rewrite H in E1. apply Qle_bool_iff in E1. congruence.
  - apply Qle_bool_iff in E2. rewrite <- H in E2. apply Qle_bool_iff in E2. congruence.
Qed.

Lemma trip_count_unique (bound : number) (n m : nat) :
  trip_count bound n -> trip_count bound m -> n = m.
Proof.
  intros [Hn Hbn] [Hm Hbm].
  destruct (Nat.lt_trichotomy n m) as [Hlt|[Heq|Hgt]]; [|exact Heq|].
  - specialize (Hbm n Hlt). congruence.
  - specialize (Hbn m Hgt). congruence.
Qed.

(** A bound that is a natural number is the number of iterations. *)
Lemma trip_count_nat (bound : number) (m : nat) :
  num_eq bound (num_of_nat m) -> trip_count bound m.
Proof.
  intros Heq. split.
  - rewrite (num_lt_eq_r _ _ _ Heq).
    destruct (num_lt (num_of_nat m) (num_of_nat m)) eqn:E; [|reflexivity].
    apply num_lt_nat in E. lia.
  - intros j Hj. rewrite (num_lt_eq_r _ _ _ Heq). apply num_lt_nat. exact Hj.
Qed.

(** [Math.min(x, k)] caps the number of iterations at [k]. *)
Lemma trip_count_capped (x : number) (k n : nat) :
  trip_count (Math_min x (num_of_nat k)) n -> (n <= k)%nat.
Proof.
  intros [_ Hbelow].
  destruct (Nat.le_gt_cases n k) as [Hle|Hgt]; [exact Hle|].
  specialize (Hbelow k Hgt).
  apply num_lt_Math_min in Hbelow. destruct Hbelow as [_ Hkk].
  apply num_lt_nat in Hkk. lia.
Qed.

(** Every iteration but the last guard test has its counter below the
    first argument of [Math.min]. *)
Lemma trip_count_below (x y : number) (n : nat) :
  trip_count (Math_min x y) (S n) -> num_lt (num_of_nat n) x = true.
Proof.
  intros [_ Hbelow]. specialize (Hbelow n (Nat.lt_succ_diag_r n)).
  apply num_lt_Math_min in Hbelow. tauto.
Qed.

Lemma Math_min_nat (x : number) (m k : nat) :
  num_eq x (num_of_nat m) ->
  num_eq (Math_min x (num_of_nat k)) (num_of_nat (Nat.min m k)).
Proof.
  destruct x as [| |q|]; simpl; try tauto.
  intros Hq. destruct (Qltb (inject_Z (Z.of_nat k)) q) eqn:E; simpl.
  - apply Qltb_true in E. rewrite Hq in E. rewrite <- Zlt_Qlt in E.
    rewrite Nat.min_r by lia. reflexivity.
  - apply Qltb_false in E. rewrite Hq in E. rewrite <- Zle_Qle in E.
    rewrite Nat.min_l by lia. exact Hq.
Qed.

End TripCounts.

Section ForwardChaining.
Import ReasoningEngine.

Lemma Math_min_not_PosInf (x : number) (q : Q) : Math_min x (Fin q) <> PosInf.
Proof.
  destruct x as [| |p|]; simpl; try discriminate.
  destruct (Qltb q p); discriminate.
Qed.

Lemma threshold_truthy (context : Context) (itemIndex : nat) :
  truthy (confidenceThreshold (getReasoningParams context itemIndex)) = true.
Proof. apply or_default_truthy. reflexivity. Qed.

Lemma threshold_not_NaN (context : Context) (itemIndex : nat) :
  confidenceThreshold (getReasoningParams context itemIndex) <> NaN.
Proof. apply truthy_not_NaN, threshold_truthy. Qed.

Lemma length_push {A : Type} (l : list A) (x : A) :
  List.length (push l x) = S (List.length l).
Proof. unfold push. rewrite length_app. simpl. lia. Qed.

Lemma Forall_push {A : Type} (P : A -> Prop) (l : list A) (x : A) :
  Forall P l -> P x -> Forall P (push l x).
Proof.
  intros Hl Hx. unfold push. apply Forall_app. split; [exact Hl|].
  constructor; [exact Hx|constructor].
Qed.

Lemma forward_body_preserves (params : Params) :
  confidenceThreshold params <> NaN ->
  forall i acc w,
    forward_inv params i acc w ->
    num_lt (num_of_nat i) (Math_min (maxSteps params) (Fin 5)) = true ->
    exists acc' w',
      forward_body params i acc w = Returned acc' w' /\
      forward_inv params (S i) acc' w'.
Proof.
  intros Hthr i [steps conclusions] w (Hs & Hc & Hall) _.
  cbn [fst snd] in Hs, Hc, Hall.
  unfold forward_body, bind, Math_random. cbn [Step.confidence].
  rewrite (Math_max_ge_left _ _ Hthr).
  eexists; eexists; split; [reflexivity|].
  unfold forward_inv; cbn [fst snd]. rewrite !length_push.
  split; [congruence|]. split; [congruence|].
  apply Forall_push; [exact Hall|].
  cbn [Conclusion.confidence]. apply Math_max_ge_left. exact Hthr.
Qed.

Lemma performForwardChaining_returns (context : Context) (itemIndex : nat) (w : World) :
  exists r w',
    performForwardChaining context itemIndex w = Returned r w' /\
    trip_count (Math_min (maxSteps (getReasoningParams context itemIndex)) (Fin 5))
               (List.length (Forward.steps r)) /\
    List.length (Forward.conclusions r) = List.length (Forward.steps r) /\
    Forall (fun c => num_ge (Conclusion.confidence c)
                            (confidenceThreshold (getReasoningParams context itemIndex)) = true)
           (Forward.conclusions r).
Proof.
  set (params := getReasoningParams context itemIndex).
  destruct (for_lt_invariant
              (Math_min (maxSteps params) (Fin 5)) (forward_body params)
              (forward_inv params)
              (forward_body_preserves params (threshold_not_NaN context itemIndex))
              ([], []) w (Math_min_not_PosInf _ _))
    as (n & [steps conclusions] & w' & Hrun & (Hs & Hc & Hall) & Htrip).
  { repeat split; constructor. }
  cbn [fst snd] in *.
  unfold performForwardChaining, bind. fold params. rewrite Hrun.
  unfold Date_now, ret. eexists; eexists; split; [reflexivity|].
  cbn [Forward.steps Forward.conclusions].
  rewrite Hs, Hc. repeat split; try apply Htrip. exact Hall.
Qed.

End ForwardChaining.

Section BackwardChaining.
Import ReasoningEngine.

Lemma num_le_Fin (a b : Q) : num_le (Fin a) (Fin b) = true <-> a <= b.
Proof.
  unfold num_le, num_ge, num_lt. rewrite negb_true_iff. apply Qltb_false.
Qed.

Lemma Math_min_Fin (a b : Q) :
  exists m, Math_min (Fin a) (Fin b) = Fin m /\ m <= a /\ m <= b /\
            (Fin m = Fin a \/ Fin m = Fin b).
Proof.
  simpl. destruct (Qltb b a) eqn:E.
  - exists b. apply Qltb_true in E. repeat split; auto using Qle_refl, Qlt_le_weak.
  - exists a. apply Qltb_false in E. repeat split; auto using Qle_refl.
Qed.

(** The fold of [Math.min] over finite numbers is a lower bound of the
    accumulator and of every element, and is one of them. *)
Lemma fold_Math_min (l : list number) :
  forall a : Q,
    Forall (fun c => exists q, c = Fin q) l ->
    exists m,
      fold_left Math_min l (Fin a) = Fin m /\
      m <= a /\
      (forall q, In (Fin q) l -> m <= q) /\
      (Fin m = Fin a \/ In (Fin m) l).
Proof.
  induction l as [|c l IH]; intros a Hfin; cbn [fold_left].
  - exists a. repeat split; auto using Qle_refl. intros q [].
  - inversion Hfin as [|? ? [q ->] Hfin']; subst.
    destruct (Math_min_Fin a q) as (m0 & Hm0 & Hm0a & Hm0q & Hor0).
    rewrite Hm0.
    destruct (IH m0 Hfin') as (m & Hm & Hmm0 & Hlow & Hor).
    exists m. split; [exact Hm|]. split; [eapply Qle_trans; eassumption|]. split.
    + intros p [Hp|Hp].
      * injection Hp as <-. eapply Qle_trans; eassumption.
      * apply Hlow. exact Hp.
    + destruct Hor as [Hor|Hor]; [|right; right; exact Hor].
      rewrite Hor. destruct Hor0 as [Hor0|Hor0]; [left; exact Hor0|].
      right. left. symmetry. exact Hor0.
Qed.

Lemma overall_confidence_fold (subgoals : list Subgoal.t) :
  overall_confidence subgoals = fold_left Math_min (proven_confidences subgoals) (Fin 1).
Proof.
  unfold overall_confidence, proven_confidences.
  generalize (Fin 1).
  induction (filter (fun s => is_proven (Subgoal.status s)) subgoals) as [|s l IH];
    intros acc; simpl; [reflexivity|apply IH].
Qed.

Lemma proven_confidences_draws (d0 : nat -> Q) (subgoals : list Subgoal.t) :
  Forall (fun s => exists n, Subgoal.confidence s = Fin (d0 n)) subgoals ->
  Forall (fun c => exists n, c = Fin (d0 n)) (proven_confidences subgoals).
Proof.
  intros H. unfold proven_confidences.
  apply Forall_map. apply Forall_forall. intros s Hs.
  apply filter_In in Hs. destruct Hs as [Hs _].
  rewrite Forall_forall in H. exact (H s Hs).
Qed.

Lemma overall_confidence_minimum (d0 : nat -> Q) (subgoals : list Subgoal.t) :
  (forall n, 0 <= d0 n /\ d0 n < 1) ->
  Forall (fun s => exists n, Subgoal.confidence s = Fin (d0 n)) subgoals ->
  proven_confidences subgoals <> [] ->
  is_minimum (overall_confidence subgoals) (proven_confidences subgoals).
Proof.
  intros Hunit Hdraws Hne.
  apply proven_confidences_draws in Hdraws.
  rewrite overall_confidence_fold.
  set (l := proven_confidences subgoals) in *.
  assert (Hfin : Forall (fun c => exists q, c = Fin q) l).
  { eapply Forall_impl; [|exact Hdraws]. intros c [n ->]. eauto. }
  destruct (fold_Math_min l 1 Hfin) as (m & Hm & Hm1 & Hlow & Hor).
  rewrite Hm. rewrite Forall_forall in Hdraws.
  assert (Hin : In (Fin m) l).
  { destruct Hor as [Hor|Hor]; [|exact Hor].
    destruct l as [|c l']; [congruence|].
    destruct (Hdraws c (or_introl eq_refl)) as [n ->].
    specialize (Hlow (d0 n) (or_introl eq_refl)).
    injection Hor as ->.
    destruct (Hunit n) as [_ Hlt]. exfalso.
    exact (Qlt_not_le _ _ Hlt Hlow). }
  split; [exact Hin|].
  intros c Hc. destruct (Hdraws c Hc) as [n ->].
  apply num_le_Fin. apply Hlow. exact Hc.
Qed.

Lemma overall_confidence_none (subgoals : list Subgoal.t) :
  (forall s, In s subgoals -> Subgoal.status s = unproven) ->
  overall_confidence subgoals = Fin 1.
Proof.
  intros H. unfold overall_confidence.
  replace (filter (fun s => is_proven (Subgoal.status s)) subgoals) with (@nil Subgoal.t);
    [reflexivity|].
  symmetry. induction subgoals as [|s l IH]; simpl; [reflexivity|].
  rewrite (H s (or_introl eq_refl)). simpl. apply IH.
  intros s' Hs'. apply H. right. exact Hs'.
Qed.

Lemma backward_body_preserves (d0 : nat -> Q) (bound : number) :
  forall i acc w,
    backward_inv d0 i acc w ->
    num_lt (num_of_nat i) bound = true ->
    exists acc' w',
      backward_body i acc w = Returned acc' w' /\
      backward_inv d0 (S i) acc' w'.
Proof.
  intros i [subgoals proofSteps] w (Hd & Hlen & Hall) _.
  cbn [fst snd] in Hlen, Hall.
  unfold backward_body, bind, Math_random. cbn [draws cursor clock Subgoal.status].
  assert (Hnew : Forall (fun s => exists n, Subgoal.confidence s = Fin (d0 n))
                        (push subgoals
                           {| Subgoal.goal := "Subgoal_" ++ show_nat (i + 1);
                              Subgoal.status :=
                                if Qltb (3 # 10) (draws w (cursor w)) then proven else unproven;
                              Subgoal.confidence := Fin (draws w (S (cursor w))) |})).
  { apply Forall_push; [exact Hall|]. exists (S (cursor w)). simpl. rewrite Hd. reflexivity. }
  destruct (Qltb (3 # 10) (draws w (cursor w))); cbn [is_proven];
    (eexists; eexists; split; [reflexivity|]);
    unfold backward_inv; cbn [fst snd draws]; rewrite length_push;
    (split; [exact Hd|]); (split; [congruence|]); exact Hnew.
Qed.

Lemma performBackwardChaining_returns (context : Context) (itemIndex : nat) (w : World) :
  exists r w',
    performBackwardChaining context itemIndex w = Returned r w' /\
    Backward.overallConfidence r = overall_confidence (Backward.subgoals r) /\
    Backward.goalProven r =
      num_ge (Backward.overallConfidence r)
             (confidenceThreshold (getReasoningParams context itemIndex)) /\
    trip_count (Math_min (maxSteps (getReasoningParams context itemIndex)) (Fin 3))
               (List.length (Backward.subgoals r)) /\
    Forall (fun s => exists n, Subgoal.confidence s = Fin (draws w n)) (Backward.subgoals r).
Proof.
  set (params := getReasoningParams context itemIndex).
  destruct (for_lt_invariant
              (Math_min (maxSteps params) (Fin 3)) backward_body
              (backward_inv (draws w))
              (backward_body_preserves (draws w) _)
              ([], []) w (Math_min_not_PosInf _ _))
    as (n & [subgoals proofSteps] & w' & Hrun & (Hd & Hlen & Hall) & Htrip).
  { repeat split; constructor. }
  cbn [fst snd] in *.
  unfold performBackwardChaining, bind. fold params. rewrite Hrun.
  unfold Date_now, ret. eexists; eexists; split; [reflexivity|].
  cbn [Backward.overallConfidence Backward.subgoals Backward.goalProven].
  rewrite Hlen. repeat split; try apply Htrip. exact Hall.
Qed.

End BackwardChaining.

Section PatternMatching.
Import AtomSpace.

Lemma trip_count_capped_Z (x : number) (z : Z) (n : nat) :
  trip_count (Math_min x (num_of_Z z)) n -> (Z.of_nat n <= Z.max 0 z)%Z.
Proof.
  intros [_ Hbelow].
  destruct (Z.le_gt_cases (Z.of_nat n) (Z.max 0 z)) as [Hle|Hgt]; [exact Hle|].
  assert (Hj : (Z.to_nat (Z.max 0 z) < n)%nat) by lia.
  specialize (Hbelow _ Hj).
  apply num_lt_Math_min in Hbelow. destruct Hbelow as [_ Hlt].
  unfold num_of_nat, num_of_Z in Hlt. simpl in Hlt.
  apply Qltb_true in Hlt. rewrite <- Zlt_Qlt in Hlt. lia.
Qed.

Lemma floor_unit_draw (r : Q) (k : Z) :
  (0 < k)%Z -> 0 <= r -> r < 1 -> (1 <= Math_floor (r * inject_Z k) + 1 <= k)%Z.
Proof.
  intros Hk H0 H1. unfold Math_floor. split.
  - assert (0 <= Qfloor (r * inject_Z k))%Z; [|lia].
    change 0%Z with (Qfloor 0). apply Qfloor_resp_le.
    apply Qmult_le_0_compat; [exact H0|].
    change 0 with (inject_Z 0). rewrite <- Zle_Qle. lia.
  - assert (Qfloor (r * inject_Z k) < k)%Z; [|lia].
    rewrite Zlt_Qlt. eapply Qle_lt_trans; [apply Qfloor_le|].
    rewrite <- (Qmult_1_l (inject_Z k)) at 2.
    apply Qmult_lt_compat_r; [|exact H1].
    change 0 with (inject_Z 0). rewrite <- Zlt_Qlt. exact Hk.
Qed.

Lemma match_body_preserves (d : nat -> Q) (c : nat) (bound : number) :
  forall i matches w,
    match_inv d c i matches w ->
    num_lt (num_of_nat i) bound = true ->
    exists matches' w',
      match_body i matches w = Returned matches' w' /\
      match_inv d c (S i) matches' w'.
Proof.
  intros i matches w (Hd & Hcur & Hm) _.
  unfold match_body, random_truth_value, bind, Math_random, ret.
  eexists; eexists; split; [reflexivity|].
  unfold match_inv. cbn [draws cursor].
  split; [exact Hd|]. split; [lia|].
  rewrite seq_S, map_app, <- Hm. unfold push. f_equal.
  cbn [map Nat.add]. unfold nth_match. rewrite Hd, Hcur.
  replace (S (c + (2 * i + 1)))%nat with (c + (2 * i + 2))%nat by lia.
  reflexivity.
Qed.

(** [patternMatch] always returns, and its result is this one. *)
Lemma patternMatch_returns (context : Context) (itemIndex : nat) (w : World) :
  exists n w',
    patternMatch context itemIndex w =
      Returned
        {| PatternMatch.operation := "patternMatch";
           PatternMatch.pattern := pattern (getNodeParameter context itemIndex);
           PatternMatch.matches := map (nth_match (draws w) (cursor w)) (seq 0 n);
           PatternMatch.matchCount := n |}
        w' /\
    trip_count
      (Math_min (maxResults (getNodeParameter context itemIndex))
                (num_of_Z (Math_floor (draws w (cursor w) * 5) + 1)))
      n.
Proof.
  unfold patternMatch, bind at 1, Math_random.
  set (bound := Math_min _ _).
  set (w1 := mkWorld _ _ _).
  destruct (for_lt_invariant bound match_body (match_inv (draws w) (cursor w))
              (match_body_preserves (draws w) (cursor w) bound)
              [] w1 (Math_min_not_PosInf _ _))
    as (n & matches & w' & Hrun & (Hd & Hcur & Hm) & Htrip).
  { split; [reflexivity|]. split; [simpl; lia|reflexivity]. }
  unfold bind. rewrite Hrun. unfold ret.
  exists n, w'. split; [|exact Htrip].
  rewrite Hm, length_map, length_seq. reflexivity.
Qed.

End PatternMatching.

(* ===================================================================== *)
(** * AtomSpace: the stated properties *)
(* ===================================================================== *)

Section AtomSpaceProperties.
Import AtomSpace.

(** C1, as stated, fails: with the truth value [(0.6, 0.7)] set on the
    atom [Human] and a random source that draws [0.25], the
    [getTruthValue] issued right after [setTruthValue] returns
    [(0.25, 0.25)], not the value that was set. *)
Lemma get_after_set_differs :
  valid_truth_value tv_06_07 /\
  exists s g w',
    set_then_get set_human_context 0 (world_const (1 # 4) 0) = Returned (s, g) w' /\
    SetTruthValue.newTruthValue s = tv_06_07 /\
    ~ tv_eq (GetTruthValue.truthValue g) tv_06_07.
Proof.
  split.
  - split; eexists; (split; [reflexivity|]); split; discriminate.
  - eexists; eexists; eexists. split; [reflexivity|]. split; [reflexivity|].
    intros [H _]. vm_compute in H. discriminate.
Qed.

(** C1, amended: [setTruthValue(id, t)] reports [t] (or the default
    [(0.8, 0.9)] when no values are supplied) as [newTruthValue] and
    succeeds; the [getTruthValue(id)] called immediately after it returns,
    whatever [t] was, the truth value made of the next two
    [Math.random()] draws, a valid one when the draws are in [[0, 1)]. *)
Theorem get_after_set_returns_draws (context : Context) (itemIndex : nat) (w : World) :
  exists s g w',
    set_then_get context itemIndex w = Returned (s, g) w' /\
    SetTruthValue.newTruthValue s =
      values_or_default (truthValue (getNodeParameter context itemIndex)) /\
    SetTruthValue.success s = true /\
    GetTruthValue.truthValue g =
      {| TruthValue.strength := Some (Fin (draws w (S (S (cursor w)))));
         TruthValue.confidence := Some (Fin (draws w (S (S (S (cursor w)))))) |} /\
    GetTruthValue.exists_ g = true /\
    (unit_draws w -> valid_truth_value (GetTruthValue.truthValue g)).
Proof.
  eexists; eexists; eexists. split; [reflexivity|].
  cbn [SetTruthValue.newTruthValue SetTruthValue.success GetTruthValue.truthValue
       GetTruthValue.exists_ draws cursor].
  repeat (split; [reflexivity|]).
  intros Hunit. split; eexists; (split; [reflexivity|]);
    (split; [apply Hunit | apply Qlt_le_weak, Hunit]).
Qed.

(** C2, as stated, fails: an [InheritanceLink] (required arity 2) added
    with a one-element outgoing list is accepted: [addAtom] returns
    [success: true], and [execute] emits that result, not an error. *)
Lemma addAtom_accepts_arity_mismatch :
  atomType (getNodeParameter add_inheritance_context 0) = "InheritanceLink" /\
  List.length (outgoing_of add_inheritance_context 0) = 1%nat /\
  arity_ok "InheritanceLink" 1 = false /\
  (exists r w',
      addAtom add_inheritance_context 0 (world_const (1 # 4) 0) = Returned r w' /\
      AddAtom.success r = true) /\
  (exists r w',
      execute add_inheritance_context (world_const (1 # 4) 0)
        = Returned [[ {| json := OfAddAtom r; pairedItem := 0 |} ]] w' /\
      AddAtom.success r = true).
Proof.
  split; [reflexivity|]. split; [reflexivity|]. split; [reflexivity|].
  split; eexists; eexists; (split; [cbv; reflexivity|]); reflexivity.
Qed.

(** C2, amended: [addAtom] checks no arity and never fails: for every
    atom type, link kinds included, and whatever outgoing list comes with
    the call, it returns [success: true] with a generated id, echoing the
    atom type, the atom name and the supplied truth value (default
    [(0.8, 0.9)]); it writes nothing but the result, the only state it
    advances being the random source. *)
Theorem addAtom_always_succeeds (context : Context) (itemIndex : nat) (w : World) :
  exists r,
    addAtom context itemIndex w
      = Returned r (mkWorld (draws w) (S (cursor w)) (clock w)) /\
    AddAtom.success r = true /\
    AddAtom.operation r = "addAtom" /\
    AddAtom.atomType r = atomType (getNodeParameter context itemIndex) /\
    AddAtom.atomName r = atomName (getNodeParameter context itemIndex) /\
    AddAtom.truthValue r =
      values_or_default (truthValue (getNodeParameter context itemIndex)) /\
    AddAtom.atomId r = atom_ (clock w) (draws w (cursor w)).
Proof.
  unfold addAtom, bind, Date_now, Math_random, ret.
  eexists. split; [reflexivity|]. repeat split; reflexivity.
Qed.

(** C5 at [maxResults = 0.5], which is non-negative: [patternMatch]
    returns one match, and [1 <= 0.5] is false.  The cap that
    [Math.min(maxResults, ...)] sets is compared with the loop index
    [i = 0, 1, ...], so a count that is not an integer lets one match too
    many through. *)
Lemma patternMatch_exceeds_fractional_maxResults :
  num_ge (maxResults (getNodeParameter (pattern_context (Fin (1 # 2))) 0)) (Fin 0) = true /\
  exists r w',
    patternMatch (pattern_context (Fin (1 # 2))) 0 (world_const (1 # 4) 0) = Returned r w' /\
    List.length (PatternMatch.matches r) = 1%nat /\
    num_le (num_of_nat (List.length (PatternMatch.matches r)))
           (maxResults (getNodeParameter (pattern_context (Fin (1 # 2))) 0)) = false.
Proof.
  split; [reflexivity|].
  eexists; eexists. split; [cbv; reflexivity|]. split; reflexivity.
Qed.

(** X16: for every pattern, [patternMatch] returns, [matchCount] is the
    number of matches and there are at most five of them; there are at
    most [maxResults] of them whenever [maxResults] is a non-negative
    integer, and whenever a match is returned the index of the last one
    is below [maxResults]. *)
Theorem patternMatch_result_count (context : Context) (itemIndex : nat) (w : World) :
  unit_draws w ->
  exists r w',
    patternMatch context itemIndex w = Returned r w' /\
    PatternMatch.matchCount r = List.length (PatternMatch.matches r) /\
    (List.length (PatternMatch.matches r) <= 5)%nat /\
    (forall m : nat,
        num_eq (maxResults (getNodeParameter context itemIndex)) (num_of_nat m) ->
        (List.length (PatternMatch.matches r) <= m)%nat) /\
    (forall n : nat,
        List.length (PatternMatch.matches r) = S n ->
        num_lt (num_of_nat n) (maxResults (getNodeParameter context itemIndex)) = true).
Proof.
  intros Hunit.
  destruct (patternMatch_returns context itemIndex w) as (n & w' & Hrun & Htrip).
  eexists; eexists. split; [exact Hrun|].
  cbn [PatternMatch.matchCount PatternMatch.matches].
  rewrite length_map, length_seq.
  assert (Hbelow : forall k, n = S k ->
            num_lt (num_of_nat k) (maxResults (getNodeParameter context itemIndex)) = true).
  { intros k ->. eapply trip_count_below. exact Htrip. }
  split; [reflexivity|]. split; [|split].
  - apply trip_count_capped_Z in Htrip.
    destruct (Hunit (cursor w)) as [H0 H1].
    pose proof (floor_unit_draw _ 5 eq_refl H0 H1) as Hfloor.
    change (inject_Z 5) with 5 in Hfloor. lia.
  - intros m Hm. destruct n as [|k]; [lia|].
    specialize (Hbelow k eq_refl).
    rewrite (num_lt_eq_r _ _ _ Hm) in Hbelow. apply num_lt_nat in Hbelow. lia.
  - exact Hbelow.
Qed.

(** X16 on the scenario of the specification: [maxResults = 2] against
    five available matches returns exactly two. *)
Lemma patternMatch_result_count_witness :
  exists r w',
    patternMatch (pattern_context (Fin 2)) 0 (world_const (9 # 10) 0) = Returned r w' /\
    PatternMatch.matchCount r = 2%nat /\
    List.length (PatternMatch.matches r) = 2%nat.
Proof.
  assert (Hunit : unit_draws (world_const (9 # 10) 0)).
  { intros n. split; [discriminate|reflexivity]. }
  destruct (patternMatch_result_count (pattern_context (Fin 2)) 0 _ Hunit)
    as (r & w' & Hrun & Hcount & _ & Hle & _).
  exists r, w'. split; [exact Hrun|].
  vm_compute in Hrun. injection Hrun as <- _.
  split; reflexivity.
Defined.




End AtomSpaceProperties.

(* ===================================================================== *)
(** * ReasoningEngine: the stated properties *)
(* ===================================================================== *)

Section ReasoningEngineProperties.
Import ReasoningEngine.

(** C3: whatever the input knowledge and the parameters, forward chaining
    returns, and every conclusion it returns has a confidence greater
    than or equal to the confidence threshold in force, hence also to the
    threshold that was supplied. *)
Theorem forward_conclusions_meet_threshold
        (context : Context) (itemIndex : nat) (w : World) :
  exists r w',
    performForwardChaining context itemIndex w = Returned r w' /\
    forall c,
      In c (Forward.conclusions r) ->
      num_ge (Conclusion.confidence c)
             (confidenceThreshold (getReasoningParams context itemIndex)) = true /\
      (forall supplied t,
          reasoningParams (getNodeParameter context itemIndex)
            = Some (mkParamsCollection (Some supplied)) ->
          v_confidenceThreshold supplied = Some t ->
          t <> NaN ->
          num_ge (Conclusion.confidence c) t = true).
Proof.
  destruct (performForwardChaining_returns context itemIndex w)
    as (r & w' & Hrun & _ & _ & Hall).
  exists r, w'. split; [exact Hrun|].
  rewrite Forall_forall in Hall.
  intros c Hc. specialize (Hall c Hc). split; [exact Hall|].
  intros supplied t Hsupplied Ht Hnan.
  apply num_ge_trans with (1 := Hall).
  unfold getReasoningParams. rewrite Hsupplied.
  cbn [values_or_empty values confidenceThreshold]. rewrite Ht.
  apply or_default_ge_supplied; [exact Hnan|discriminate].
Qed.

(** C4, as stated, fails.  With a supplied confidence threshold of [0]
    and a single proven subgoal of confidence [0.2], [overallConfidence]
    is [0.2], which is [>= 0], and yet [goalProven] is false.  And in a
    run with no proven subgoal [overallConfidence] is [1], the minimum of
    no subgoal's confidence. *)
Lemma backward_zero_threshold_not_proven :
  (exists r w',
      performBackwardChaining
        (reasoning_context "If A then B. If B then C."
           (mkParamValues (Some (Fin 3)) (Some (Fin 0)) None None))
        0 world_one_proven = Returned r w' /\
      proven_confidences (Backward.subgoals r) = [Fin (2 # 10)] /\
      Backward.overallConfidence r = Fin (2 # 10) /\
      num_ge (Backward.overallConfidence r) (Fin 0) = true /\
      Backward.goalProven r = false) /\
  (exists r w',
      performBackwardChaining
        (reasoning_context "If A then B. If B then C."
           (mkParamValues (Some (Fin 3)) (Some (Fin (9 # 10))) None None))
        0 (world_const (1 # 10) 0) = Returned r w' /\
      proven_confidences (Backward.subgoals r) = [] /\
      Backward.overallConfidence r = Fin 1 /\
      ~ is_minimum (Backward.overallConfidence r)
                   (proven_confidences (Backward.subgoals r))).
Proof.
  split.
  - eexists; eexists. split; [cbv; reflexivity|].
    repeat split; reflexivity.
  - eexists; eexists. split; [cbv; reflexivity|].
    split; [reflexivity|]. split; [reflexivity|].
    intros [Hin _]. exact Hin.
Qed.

(** C4, amended: in every backward chaining run (the draws being those
    of [Math.random()]) in which some subgoal is proven,
    [overallConfidence] is the minimum of the confidences of the proven
    subgoals (it is [1] when none is proven); [goalProven] is true if and
    only if [overallConfidence >= confidenceThreshold] for every supplied
    confidence threshold other than [0] and [NaN], and if and only if
    [overallConfidence >= 0.7] when no threshold is supplied. *)
Theorem backward_overall_confidence_is_minimum
        (context : Context) (itemIndex : nat) (w : World) :
  unit_draws w ->
  exists r w',
    performBackwardChaining context itemIndex w = Returned r w' /\
    (proven_confidences (Backward.subgoals r) <> [] ->
     is_minimum (Backward.overallConfidence r)
                (proven_confidences (Backward.subgoals r))) /\
    (proven_confidences (Backward.subgoals r) = [] ->
     Backward.overallConfidence r = Fin 1) /\
    (forall supplied,
        v_confidenceThreshold
          (values_or_empty (reasoningParams (getNodeParameter context itemIndex)))
          = Some supplied ->
        truthy supplied = true ->
        (Backward.goalProven r = true <->
         num_ge (Backward.overallConfidence r) supplied = true)) /\
    (v_confidenceThreshold
       (values_or_empty (reasoningParams (getNodeParameter context itemIndex)))
       = None ->
     (Backward.goalProven r = true <->
      num_ge (Backward.overallConfidence r) (Fin (7 # 10)) = true)).
Proof.
  intros Hunit.
  destruct (performBackwardChaining_returns context itemIndex w)
    as (r & w' & Hrun & Hoverall & Hgoal & _ & Hdraws).
  exists r, w'. split; [exact Hrun|]. split; [|split; [|split]].
  - intros Hne. rewrite Hoverall.
    apply (overall_confidence_minimum (draws w)); assumption.
  - intros Hnil. rewrite Hoverall, overall_confidence_fold, Hnil. reflexivity.
  - intros supplied Hsupplied Htruthy. rewrite Hgoal.
    unfold getReasoningParams. cbn [confidenceThreshold].
    rewrite Hsupplied. cbn [or_default]. rewrite Htruthy. reflexivity.
  - intros Hnone. rewrite Hgoal.
    unfold getReasoningParams. cbn [confidenceThreshold].
    rewrite Hnone. reflexivity.
Qed.

(** C4, amended, on three proven subgoals of confidences [0.9], [0.6],
    [0.8] with the supplied threshold [0.5]: [overallConfidence = 0.6]
    and the goal is proven (it would not be at the default [0.7]). *)
Lemma backward_overall_confidence_is_minimum_witness :
  exists r w',
    performBackwardChaining
      (reasoning_context "If A then B. If B then C."
         (mkParamValues (Some (Fin 3)) (Some (Fin (1 # 2))) None None))
      0 world_three_proven = Returned r w' /\
    proven_confidences (Backward.subgoals r)
      = [Fin (9 # 10); Fin (6 # 10); Fin (8 # 10)] /\
    is_minimum (Backward.overallConfidence r)
               (proven_confidences (Backward.subgoals r)) /\
    Backward.overallConfidence r = Fin (6 # 10) /\
    num_ge (Backward.overallConfidence r) (Fin (7 # 10)) = false /\
    Backward.goalProven r = true.
Proof.
  assert (Hunit : unit_draws world_three_proven).
  { intros n. do 6 (destruct n as [|n]; [split; (discriminate || reflexivity)|]).
    destruct n; split; (discriminate || reflexivity). }
  destruct (backward_overall_confidence_is_minimum
              (reasoning_context "If A then B. If B then C."
                 (mkParamValues (Some (Fin 3)) (Some (Fin (1 # 2))) None None))
              0 world_three_proven Hunit)
    as (r & w' & Hrun & Hmin & _ & Hsupplied & _).
  exists r, w'. split; [exact Hrun|].
  specialize (Hsupplied (Fin (1 # 2)) eq_refl eq_refl).
  vm_compute in Hrun. injection Hrun as <- _.
  split; [reflexivity|].
  split; [apply Hmin; discriminate|].
  split; [reflexivity|]. split; [reflexivity|].
  apply Hsupplied. reflexivity.
Defined.

(** C7, as stated, fails: an input knowledge text asserting both
    [Event_A before Event_B] and [Event_A after Event_B] is reported
    consistent when the random source draws [0.5]. *)
Lemma temporal_contradiction_reported_consistent :
  asserts "Event_A" "before" "Event_B"
          "Event_A before Event_B. Event_A after Event_B." = true /\
  asserts "Event_A" "after" "Event_B"
          "Event_A before Event_B. Event_A after Event_B." = true /\
  exists r w',
    performTemporalReasoning
      (reasoning_context "Event_A before Event_B. Event_A after Event_B."
         (mkParamValues None None None None))
      0 (world_const (1 # 2) 0) = Returned r w' /\
    ConsistencyCheck.isConsistent (Temporal.consistencyCheck r) = true /\
    ConsistencyCheck.violations (Temporal.consistencyCheck r) = [].
Proof.
  split; [reflexivity|]. split; [reflexivity|].
  eexists; eexists. split; [cbv; reflexivity|]. split; reflexivity.
Qed.

(** C7, amended: [isConsistent] does not depend on the input: it is true
    exactly when the [Math.random()] draw made for it is greater than
    [0.2]; the violations and the warnings are always empty, and the only
    relation reported is [Event_A before Event_B]. *)
Theorem temporal_consistency_is_a_draw
        (context : Context) (itemIndex : nat) (w : World) :
  exists r w',
    performTemporalReasoning context itemIndex w = Returned r w' /\
    ConsistencyCheck.isConsistent (Temporal.consistencyCheck r)
      = Qltb (2 # 10) (draws w (cursor w)) /\
    ConsistencyCheck.violations (Temporal.consistencyCheck r) = [] /\
    ConsistencyCheck.warnings (Temporal.consistencyCheck r) = [] /\
    Temporal.temporalRelations r =
      [ {| TemporalRelation.event1 := "Event_A";
           TemporalRelation.event2 := "Event_B";
           TemporalRelation.relation := "before";
           TemporalRelation.confidence := Fin (95 # 100);
           TemporalRelation.type := "temporal_precedence" |} ].
Proof.
  unfold performTemporalReasoning, bind, Date_now, Math_random, ret.
  eexists; eexists. split; [reflexivity|]. repeat split; reflexivity.
Qed.

(** C8: a [0] supplied for [maxSteps], [confidenceThreshold] or
    [maxResults] is replaced by the default ([10], [0.7], [10]), so that
    in every invocation the three parameters in force are non-zero. *)
Theorem zero_reasoning_params_replaced (context : Context) (itemIndex : nat) :
  let params := getReasoningParams context itemIndex in
  (forall supplied,
      reasoningParams (getNodeParameter context itemIndex)
        = Some (mkParamsCollection (Some supplied)) ->
      (forall q, v_maxSteps supplied = Some (Fin q) -> q == 0 ->
                 maxSteps params = Fin 10) /\
      (forall q, v_confidenceThreshold supplied = Some (Fin q) -> q == 0 ->
                 confidenceThreshold params = Fin (7 # 10)) /\
      (forall q, v_maxResults supplied = Some (Fin q) -> q == 0 ->
                 maxResults params = Fin 10)) /\
  ~ num_eq (maxSteps params) (Fin 0) /\
  ~ num_eq (confidenceThreshold params) (Fin 0) /\
  ~ num_eq (maxResults params) (Fin 0).
Proof.
  intros params. subst params. split.
  - intros supplied Hsupplied.
    unfold getReasoningParams. rewrite Hsupplied.
    cbn [values_or_empty values maxSteps confidenceThreshold maxResults].
    repeat split; intros q -> Hq; apply or_default_zero; exact Hq.
  - repeat split; apply truthy_not_zero, or_default_truthy; reflexivity.
Qed.

(** C8 at a context that supplies [0] for the three parameters. *)
Lemma zero_reasoning_params_replaced_witness :
  let params :=
    getReasoningParams
      (reasoning_context "kb"
         (mkParamValues (Some (Fin 0)) (Some (Fin 0)) (Some (Fin 0)) (Some true)))
      0 in
  maxSteps params = Fin 10 /\
  confidenceThreshold params = Fin (7 # 10) /\
  maxResults params = Fin 10.
Proof.
  destruct (zero_reasoning_params_replaced
              (reasoning_context "kb"
                 (mkParamValues (Some (Fin 0)) (Some (Fin 0)) (Some (Fin 0)) (Some true)))
              0)
    as (Hzero & _).
  destruct (Hzero _ eq_refl) as (Hsteps & Hthreshold & Hresults).
  split; [exact (Hsteps 0 eq_refl (Qeq_refl 0))|].
  split; [exact (Hthreshold 0 eq_refl (Qeq_refl 0))|].
  exact (Hresults 0 eq_refl (Qeq_refl 0)).
Defined.

(** C9: in every backward chaining run in which no subgoal has status
    [proven], [overallConfidence] is [1], and [goalProven] is true as soon
    as the confidence threshold is at most [1]. *)
Theorem backward_no_proven_subgoal
        (context : Context) (itemIndex : nat) (w : World) :
  exists r w',
    performBackwardChaining context itemIndex w = Returned r w' /\
    ((forall s, In s (Backward.subgoals r) -> Subgoal.status s = unproven) ->
     Backward.overallConfidence r = Fin 1 /\
     (num_le (confidenceThreshold (getReasoningParams context itemIndex)) (Fin 1) = true ->
      Backward.goalProven r = true)).
Proof.
  destruct (performBackwardChaining_returns context itemIndex w)
    as (r & w' & Hrun & Hoverall & Hgoal & _ & _).
  exists r, w'. split; [exact Hrun|].
  intros Hnone.
  assert (Hone : Backward.overallConfidence r = Fin 1).
  { rewrite Hoverall. apply overall_confidence_none. exact Hnone. }
  split; [exact Hone|].
  intros Hle. rewrite Hgoal, Hone. exact Hle.
Qed.

(** C9 at a run of three subgoals, none proven, with threshold [0.9]:
    the goal is reported proven. *)
Lemma backward_no_proven_subgoal_witness :
  exists r w',
    performBackwardChaining
      (reasoning_context "If A then B. If B then C."
         (mkParamValues (Some (Fin 3)) (Some (Fin (9 # 10))) None None))
      0 (world_const (1 # 10) 0) = Returned r w' /\
    List.length (Backward.subgoals r) = 3%nat /\
    Backward.proofSteps r = [] /\
    Backward.overallConfidence r = Fin 1 /\
    Backward.goalProven r = true.
Proof.
  destruct (backward_no_proven_subgoal
              (reasoning_context "If A then B. If B then C."
                 (mkParamValues (Some (Fin 3)) (Some (Fin (9 # 10))) None None))
              0 (world_const (1 # 10) 0))
    as (r & w' & Hrun & Hnone).
  exists r, w'. split; [exact Hrun|].
  vm_compute in Hrun. injection Hrun as <- _.
  split; [reflexivity|]. split; [reflexivity|].
  destruct Hnone as [Hone Hgoal].
  - intros s [<-|[<-|[<-|[]]]]; reflexivity.
  - split; [exact Hone|]. apply Hgoal. reflexivity.
Defined.

(** C10 at [maxSteps = 2.5]: forward chaining produces three steps, and
    [3 <= min(2.5, 5)] is false.  The bound [Math.min(params.maxSteps, 5)]
    is compared with the loop index [i = 0, 1, 2], so a step count that is
    not an integer lets one step too many through. *)
Lemma forward_steps_exceed_fractional_maxSteps :
  exists r w',
    performForwardChaining
      (reasoning_context "If A then B. A is true."
         (mkParamValues (Some (Fin (5 # 2))) (Some (Fin (7 # 10))) None None))
      0 (world_const (1 # 4) 0) = Returned r w' /\
    List.length (Forward.steps r) = 3%nat /\
    Math_min (maxSteps
                (getReasoningParams
                   (reasoning_context "If A then B. A is true."
                      (mkParamValues (Some (Fin (5 # 2))) (Some (Fin (7 # 10))) None None))
                   0))
             (Fin 5) = Fin (5 # 2) /\
    num_le (num_of_nat (List.length (Forward.steps r))) (Fin (5 # 2)) = false.
Proof.
  eexists; eexists. split; [cbv; reflexivity|].
  split; [reflexivity|]. split; reflexivity.
Qed.

(** The number of forward chaining steps, in terms of the [maxSteps] in
    force: at most five, and [min(maxSteps, 5)] when that is a
    non-negative integer. *)
Lemma forward_step_count (context : Context) (itemIndex : nat) (w : World) :
  exists r w',
    performForwardChaining context itemIndex w = Returned r w' /\
    (List.length (Forward.steps r) <= 5)%nat /\
    (List.length (Forward.conclusions r) <= 5)%nat /\
    Forward.totalSteps r = List.length (Forward.steps r) /\
    trip_count (Math_min (maxSteps (getReasoningParams context itemIndex)) (Fin 5))
               (List.length (Forward.steps r)) /\
    (forall m : nat,
        num_eq (maxSteps (getReasoningParams context itemIndex)) (num_of_nat m) ->
        List.length (Forward.steps r) = Nat.min m 5).
Proof.
  destruct (performForwardChaining_returns context itemIndex w)
    as (r & w' & Hrun & Htrip & Hlen & _).
  assert (Hfive : (List.length (Forward.steps r) <= 5)%nat)
    by exact (trip_count_capped _ 5 _ Htrip).
  assert (Htotal : Forward.totalSteps r = List.length (Forward.steps r)).
  { unfold performForwardChaining, bind in Hrun.
    destruct (for_lt _ _ _ w) as [[steps conclusions] w1| |]; try discriminate.
    unfold Date_now, ret in Hrun. injection Hrun as <- _. reflexivity. }
  exists r, w'. split; [exact Hrun|]. split; [exact Hfive|].
  split; [rewrite Hlen; exact Hfive|]. split; [exact Htotal|]. split; [exact Htrip|].
  intros m Hm.
  eapply trip_count_unique; [exact Htrip|].
  apply trip_count_nat. exact (Math_min_nat _ m 5 Hm).
Qed.

Lemma truthy_positive_nat (x : number) (m : nat) :
  num_eq x (num_of_nat (S m)) -> truthy x = true.
Proof.
  destruct x as [| |q|]; simpl; try tauto.
  intros Hq. destruct (Qeq_bool q 0) eqn:E; [|reflexivity].
  apply Qeq_bool_iff in E. rewrite E in Hq.
  change 0 with (inject_Z 0) in Hq. apply inject_Z_injective in Hq.
  discriminate Hq.
Qed.

(** X17: forward chaining returns at most five steps and as many
    conclusions, and [totalSteps] is the number of steps; a supplied
    [maxSteps] that is a positive integer [m] gives exactly [min(m, 5)]
    steps, and a [maxSteps] that is left out, [0] or [NaN] gives five
    (the default [10] is in force). *)
Theorem forward_steps_capped (context : Context) (itemIndex : nat) (w : World) :
  exists r w',
    performForwardChaining context itemIndex w = Returned r w' /\
    (List.length (Forward.steps r) <= 5)%nat /\
    (List.length (Forward.conclusions r) <= 5)%nat /\
    Forward.totalSteps r = List.length (Forward.steps r) /\
    (forall (supplied : number) (m : nat),
        v_maxSteps
          (values_or_empty (reasoningParams (getNodeParameter context itemIndex)))
          = Some supplied ->
        num_eq supplied (num_of_nat (S m)) ->
        List.length (Forward.steps r) = Nat.min (S m) 5) /\
    (forall supplied : number,
        v_maxSteps
          (values_or_empty (reasoningParams (getNodeParameter context itemIndex)))
          = Some supplied ->
        truthy supplied = false ->
        List.length (Forward.steps r) = 5%nat) /\
    (v_maxSteps
       (values_or_empty (reasoningParams (getNodeParameter context itemIndex)))
       = None ->
     List.length (Forward.steps r) = 5%nat).
Proof.
  destruct (forward_step_count context itemIndex w)
    as (r & w' & Hrun & Hsteps & Hconclusions & Htotal & _ & Hexact).
  exists r, w'. split; [exact Hrun|]. split; [exact Hsteps|].
  split; [exact Hconclusions|]. split; [exact Htotal|].
  unfold getReasoningParams in Hexact. cbn [maxSteps] in Hexact.
  split; [|split].
  - intros supplied m Hsupplied Hm. apply Hexact.
    rewrite Hsupplied. cbn [or_default].
    rewrite (truthy_positive_nat _ _ Hm). exact Hm.
  - intros supplied Hsupplied Hfalsy. apply (Hexact 10%nat).
    rewrite Hsupplied. cbn [or_default]. rewrite Hfalsy. reflexivity.
  - intros Hnone. apply (Hexact 10%nat). rewrite Hnone. reflexivity.
Qed.

(** X17 on the scenario of the node's test: with [maxSteps = 2] supplied,
    exactly two steps and two conclusions are produced. *)
Lemma forward_steps_capped_witness :
  exists r w',
    performForwardChaining
      (reasoning_context "If A then B. A is true."
         (mkParamValues (Some (Fin 2)) (Some (Fin (7 # 10))) None None))
      0 (world_const (3 # 4) 0) = Returned r w' /\
    List.length (Forward.steps r) = 2%nat /\
    List.length (Forward.conclusions r) = 2%nat /\
    Forward.totalSteps r = 2%nat.
Proof.
  destruct (forward_steps_capped
              (reasoning_context "If A then B. A is true."
                 (mkParamValues (Some (Fin 2)) (Some (Fin (7 # 10))) None None))
              0 (world_const (3 # 4) 0))
    as (r & w' & Hrun & _ & _ & Htotal & Hexact & _).
  exists r, w'. split; [exact Hrun|].
  specialize (Hexact (Fin 2) 1%nat eq_refl (Qeq_refl 2)).
  split; [exact Hexact|].
  split; [|rewrite Htotal; exact Hexact].
  vm_compute in Hrun. injection Hrun as <- _. reflexivity.
Defined.

End ReasoningEngineProperties.

(* ===================================================================== *)
(** * Further properties of the nodes: vocabulary *)
(* ===================================================================== *)

(** The properties below cover the rest of the two nodes: [queryAtoms]
    and [execute] of the AtomSpace node, the abductive, analogical and
    probabilistic methods and [execute] of the reasoning engine.  Both
    [execute] methods look the node's methods up on [this].  For the
    AtomSpace node [this] is taken as the node's tests build it, from the
    node itself ([Object.create(atomSpace)]), so that it carries them; for
    the reasoning engine, whose tests call [execute] on a bare mock,
    whether [this] carries a method is part of the model
    ([ReasoningEngine.carries]). *)

(** ** AtomSpace *)

(** The operations [execute] dispatches on. *)
Definition known_operation (operation : string) : bool :=
  existsb (String.eqb operation)
          ["addAtom"; "queryAtoms"; "patternMatch"; "getTruthValue"; "setTruthValue"].

(** The [operation] field of an output, absent from an error output. *)
Definition result_operation (r : AtomSpace.Result) : option string :=
  match r with
  | AtomSpace.OfAddAtom r => Some (AtomSpace.AddAtom.operation r)
  | AtomSpace.OfQueryAtoms r => Some (AtomSpace.QueryAtoms.operation r)
  | AtomSpace.OfPatternMatch r => Some (AtomSpace.PatternMatch.operation r)
  | AtomSpace.OfGetTruthValue r => Some (AtomSpace.GetTruthValue.operation r)
  | AtomSpace.OfSetTruthValue r => Some (AtomSpace.SetTruthValue.operation r)
  | AtomSpace.OfError _ => None
  end.

(** What the output paired with item [k] is: the result of the item's
    operation, or the error of an unknown operation. *)
Definition atomspace_entry_ok (context : AtomSpace.Context) (k : nat)
           (e : AtomSpace.ExecutionData) : Prop :=
  AtomSpace.pairedItem e = k /\
  let operation := AtomSpace.operation (AtomSpace.getNodeParameter context k) in
  if known_operation operation
  then result_operation (AtomSpace.json e) = Some operation
  else AtomSpace.json e = AtomSpace.OfError ("Unknown operation: " ++ operation).

(** Loop invariant of [AtomSpace.execute]. *)
Definition atomspace_execute_inv (context : AtomSpace.Context) (i : nat)
           (returnData : list AtomSpace.ExecutionData) (w : World) : Prop :=
  List.length returnData = i /\
  forall k e, nth_error returnData k = Some e -> atomspace_entry_ok context k e.

(** [e] is the output of item [k] when the item is reached in world [w1]
    and left in world [w2]: what the method named by the item's operation
    returns when called with the context and [k], or the error of an
    unknown operation. *)
Definition atomspace_item_output (context : AtomSpace.Context) (k : nat)
           (w1 : World) (e : AtomSpace.ExecutionData) (w2 : World) : Prop :=
  AtomSpace.pairedItem e = k /\
  let operation := AtomSpace.operation (AtomSpace.getNodeParameter context k) in
  match AtomSpace.json e with
  | AtomSpace.OfAddAtom r =>
      operation = "addAtom" /\ AtomSpace.addAtom context k w1 = Returned r w2
  | AtomSpace.OfQueryAtoms r =>
      operation = "queryAtoms" /\ AtomSpace.queryAtoms context k w1 = Returned r w2
  | AtomSpace.OfPatternMatch r =>
      operation = "patternMatch" /\ AtomSpace.patternMatch context k w1 = Returned r w2
  | AtomSpace.OfGetTruthValue r =>
      operation = "getTruthValue" /\ AtomSpace.getTruthValue context k w1 = Returned r w2
  | AtomSpace.OfSetTruthValue r =>
      operation = "setTruthValue" /\ AtomSpace.setTruthValue context k w1 = Returned r w2
  | AtomSpace.OfError message =>
      known_operation operation = false /\
      message = "Unknown operation: " ++ operation /\
      w2 = w1
  end.

(** [returnData] holds the outputs of the items [0], [1], ... in this
    order, each item starting in the world the one before it left: from
    [w], the whole list leaves the world [w']. *)
Inductive atomspace_outputs (context : AtomSpace.Context) (w : World)
  : list AtomSpace.ExecutionData -> World -> Prop :=
| atomspace_outputs_none : atomspace_outputs context w [] w
| atomspace_outputs_push (returnData : list AtomSpace.ExecutionData) (w1 : World)
                         (e : AtomSpace.ExecutionData) (w2 : World) :
    atomspace_outputs context w returnData w1 ->
    atomspace_item_output context (List.length returnData) w1 e w2 ->
    atomspace_outputs context w (push returnData e) w2.

(** The [k]-th result pushed by [queryAtoms] when the draws are [d] and
    the cursor stood at [c] on entry. *)
Definition nth_hit (d : nat -> Q) (c : nat) (atomName : string) (k : nat)
  : AtomSpace.QueryHit.t :=
  {| AtomSpace.QueryHit.atomId := "atom_" ++ show_nat k ++ "_" ++ atomName;
     AtomSpace.QueryHit.atomType := "ConceptNode";
     AtomSpace.QueryHit.atomName := atomName ++ "_" ++ show_nat k;
     AtomSpace.QueryHit.truthValue :=
       {| AtomSpace.TruthValue.strength := Some (Fin (d (c + (2 * k + 1))%nat));
          AtomSpace.TruthValue.confidence := Some (Fin (d (c + (2 * k + 2))%nat)) |} |}.

(** Loop invariant of [queryAtoms]. *)
Definition query_inv (d : nat -> Q) (c : nat) (atomName : string) (i : nat)
           (results : list AtomSpace.QueryHit.t) (w : World) : Prop :=
  draws w = d /\
  cursor w = (c + (2 * i + 1))%nat /\
  results = map (nth_hit d c atomName) (seq 0 i).

(** A truth value whose strength and confidence are probabilities below
    one, as [Math.random()] draws them. *)
Definition drawn_truth_value (t : AtomSpace.TruthValue.t) : Prop :=
  exists s c,
    AtomSpace.TruthValue.strength t = Some (Fin s) /\
    AtomSpace.TruthValue.confidence t = Some (Fin c) /\
    0 <= s /\ s < 1 /\ 0 <= c /\ c < 1.


(** The draws [1/2], [1/3], [1/4], ... *)
Definition world_harmonic : World :=
  mkWorld (fun n => 1 # Pos.of_succ_nat (S n)) 0 0.

(** Three input items: a [getTruthValue] on [Human], a [setTruthValue]
    on [Animal], then an operation the node does not know. *)
Definition three_item_context (continueOnFail : bool) : AtomSpace.Context :=
  AtomSpace.mkContext
    [JObject []; JObject []; JObject []]
    (fun i =>
       match i with
       | O => AtomSpace.mkNodeParameters
                "getTruthValue" "ConceptNode" "Human" None EmptyString (Fin 100)
       | S O => AtomSpace.mkNodeParameters
                  "setTruthValue" "ConceptNode" "Animal"
                  (Some (AtomSpace.mkTruthValueParam (Some tv_06_07)))
                  EmptyString (Fin 100)
       | S (S _) => AtomSpace.mkNodeParameters
                      "removeAtom" "ConceptNode" "Mammal" None EmptyString (Fin 100)
       end)
    continueOnFail.

Definition query_context (maxResults : number) : AtomSpace.Context :=
  atomspace_context
    (JObject [])
    (AtomSpace.mkNodeParameters
       "queryAtoms" "ConceptNode" "Human" None EmptyString maxResults).

(** ** ReasoningEngine *)








(** The [k]-th hypothesis generated by [performAbductiveReasoning]. *)
Definition nth_hypothesis (d : nat -> Q) (c : nat) (goalQuery : string) (k : nat)
  : ReasoningEngine.AbductiveHypothesis.t :=
  {| ReasoningEngine.AbductiveHypothesis.hypothesis :=
       "Hypothesis_" ++ show_nat (k + 1) ++ ": Explains " ++ goalQuery;
     ReasoningEngine.AbductiveHypothesis.explanation :=
       "This hypothesis explains the observation through...";
     ReasoningEngine.AbductiveHypothesis.plausibility := Fin (d (c + k)%nat);
     ReasoningEngine.AbductiveHypothesis.supportingEvidence :=
       [ "Evidence_" ++ show_nat (k + 1) ++ "a";
         "Evidence_" ++ show_nat (k + 1) ++ "b" ] |}.

(** Loop invariant of [performAbductiveReasoning]. *)
Definition abductive_inv (d : nat -> Q) (c : nat) (goalQuery : string) (i : nat)
           (hypotheses : list ReasoningEngine.AbductiveHypothesis.t) (w : World) : Prop :=
  draws w = d /\
  cursor w = (c + i)%nat /\
  hypotheses = map (nth_hypothesis d c goalQuery) (seq 0 i).

(** [a] ranks at least as high as [b]. *)
Definition at_least_as_plausible (a b : ReasoningEngine.AbductiveHypothesis.t) : Prop :=
  num_ge (ReasoningEngine.AbductiveHypothesis.plausibility a)
         (ReasoningEngine.AbductiveHypothesis.plausibility b) = true.

(** The conclusion [performForwardChaining] draws from a step. *)
Definition conclusion_of (step : ReasoningEngine.Step.t) : ReasoningEngine.Conclusion.t :=
  {| ReasoningEngine.Conclusion.statement := ReasoningEngine.Step.conclusion step;
     ReasoningEngine.Conclusion.confidence := ReasoningEngine.Step.confidence step;
     ReasoningEngine.Conclusion.derivation :=
       "Derived from " ++ ReasoningEngine.Step.premise step
         ++ " using " ++ ReasoningEngine.Step.rule step |}.

(** Stronger loop invariant of [performForwardChaining]. *)
Definition forward_steps_inv (params : ReasoningEngine.Params) (i : nat)
           (acc : list ReasoningEngine.Step.t * list ReasoningEngine.Conclusion.t)
           (w : World) : Prop :=
  List.length (fst acc) = i /\
  snd acc = map conclusion_of (fst acc) /\
  forall k s,
    nth_error (fst acc) k = Some s ->
    ReasoningEngine.Step.stepNumber s = (k + 1)%nat /\
    ReasoningEngine.Step.rule s = "Rule_" ++ show_nat (k + 1) /\
    ReasoningEngine.Step.premise s = "Premise_" ++ show_nat (k + 1) /\
    ReasoningEngine.Step.conclusion s = "Conclusion_" ++ show_nat (k + 1).

(** The proof step [performBackwardChaining] records for the proven
    subgoal at position [k]. *)
Definition proof_step_of (k : nat) (s : ReasoningEngine.Subgoal.t)
  : ReasoningEngine.ProofStep.t :=
  {| ReasoningEngine.ProofStep.step := k + 1;
     ReasoningEngine.ProofStep.goal := ReasoningEngine.Subgoal.goal s;
     ReasoningEngine.ProofStep.proof := "Proven by rule application";
     ReasoningEngine.ProofStep.confidence := ReasoningEngine.Subgoal.confidence s |}.

(** The proof steps of the proven subgoals among [subgoals], the first
    of which stands at position [k]. *)
Fixpoint proof_steps_from (k : nat) (subgoals : list ReasoningEngine.Subgoal.t)
  : list ReasoningEngine.ProofStep.t :=
  match subgoals with
  | [] => []
  | s :: rest =>
      if ReasoningEngine.is_proven (ReasoningEngine.Subgoal.status s)
      then proof_step_of k s :: proof_steps_from (S k) rest
      else proof_steps_from (S k) rest
  end.

(** Stronger loop invariant of [performBackwardChaining]. *)
Definition backward_steps_inv (i : nat)
           (acc : list ReasoningEngine.Subgoal.t * list ReasoningEngine.ProofStep.t)
           (w : World) : Prop :=
  List.length (fst acc) = i /\
  snd acc = proof_steps_from 0 (fst acc) /\
  forall k s,
    nth_error (fst acc) k = Some s ->
    ReasoningEngine.Subgoal.goal s = "Subgoal_" ++ show_nat (k + 1).


(* ===================================================================== *)
(** * Further facts about loops, strings and sorting *)
(* ===================================================================== *)

Section LoopsOverItems.



(** The number of iterations of a loop over [n] items is [n]. *)
Lemma trip_count_items (n k : nat) : trip_count (num_of_nat n) k -> k = n.
Proof.
  intros Hk. eapply trip_count_unique; [exact Hk|].
  apply trip_count_nat. unfold num_of_nat. simpl. reflexivity.
Qed.

Context {St : Type}.
Variable bound : number.
Variable body : nat -> St -> Sim St.
Variable Inv : nat -> St -> World -> Prop.
Variable k : nat.
Variable message : string.

Hypothesis bound_finite : bound <> PosInf.
Hypothesis reaches_k : num_lt (num_of_nat k) bound = true.
Hypothesis body_before :
  forall i s w,
    Inv i s w -> (i < k)%nat ->
    exists s' w', body i s w = Returned s' w' /\ Inv (S i) s' w'.
Hypothesis body_at :
  forall s w, Inv k s w -> exists w', body k s w = Thrown message w'.



End LoopsOverItems.

Section Strings.

Lemma string_length_append (a b : string) :
  String.length (a ++ b) = (String.length a + String.length b)%nat.
Proof. induction a as [|c a IH]; simpl; [reflexivity|rewrite IH; reflexivity]. Qed.

Lemma string_append_cancel_l (p a b : string) : p ++ a = p ++ b -> a = b.
Proof.
  induction p as [|c p IH]; simpl; intros H; [exact H|].
  injection H as H. apply IH. exact H.
Qed.

Lemma string_append_cancel_r (t a b : string) : a ++ t = b ++ t -> a = b.
Proof.
  revert b. induction a as [|c a IH]; intros [|c' b] H; simpl in H.
  - reflexivity.
  - apply (f_equal String.length) in H. simpl in H.
    rewrite string_length_append in H. lia.
  - apply (f_equal String.length) in H. simpl in H.
    rewrite string_length_append in H. lia.
  - injection H as -> H. f_equal. apply IH. exact H.
Qed.

(** Distinct numbers have distinct decimal renderings. *)
Lemma show_nat_injective (n m : nat) : show_nat n = show_nat m -> n = m.
Proof.
  unfold show_nat. intros H.
  assert (Hu : Nat.to_uint n = Nat.to_uint m).
  { pose proof (NilEmpty.usu (Nat.to_uint n)) as Hn.
    pose proof (NilEmpty.usu (Nat.to_uint m)) as Hm.
    rewrite H in Hn. congruence. }
  rewrite <- (Unsigned.of_to n), <- (Unsigned.of_to m), Hu.
  reflexivity.
Qed.

Lemma NoDup_map_seq {A : Type} (f : nat -> A) (n : nat) :
  (forall i j, f i = f j -> i = j) -> NoDup (map f (seq 0 n)).
Proof.
  intros Hinj. generalize (seq_NoDup n 0).
  induction (seq 0 n) as [|i l IH]; intros Hnd; simpl; [constructor|].
  inversion Hnd as [|? ? Hnotin Hnd']; subst. constructor; [|apply IH; exact Hnd'].
  intros Hin. apply in_map_iff in Hin. destruct Hin as (j & Hj & Hjl).
  apply Hinj in Hj. subst j. contradiction.
Qed.

Lemma nth_error_map_seq {A : Type} (f : nat -> A) (n k : nat) (x : A) :
  nth_error (map f (seq 0 n)) k = Some x -> (k < n)%nat /\ x = f k.
Proof.
  intros Hk. rewrite nth_error_map in Hk.
  destruct (nth_error (seq 0 n) k) as [j|] eqn:Hj; [|discriminate].
  injection Hk as <-.
  assert (Hlt : (k < List.length (seq 0 n))%nat)
    by (apply nth_error_Some; congruence).
  rewrite length_seq in Hlt.
  pose proof (nth_error_nth _ _ 0%nat Hj) as Hnth.
  rewrite seq_nth in Hnth by exact Hlt. simpl in Hnth. subst j. auto.
Qed.

End Strings.

Section Sorting.

Context {A : Type}.
Variable key : A -> number.

(** The comparator [(a, b) => b.key - a.key] and the order it sorts by. *)
Let descending (a b : A) : number := num_sub (key b) (key a).
Let ranks_before (a b : A) : Prop := num_ge (key a) (key b) = true.
Let finite_key (x : A) : Prop := exists q, key x = Fin q.

Lemma sort_insert_permutation (compare : A -> A -> number) (x : A) (l : list A) :
  Permutation (sort_insert compare x l) (x :: l).
Proof.
  induction l as [|y l IH]; simpl; [apply Permutation_refl|].
  destruct (num_lt (compare x y) (Fin 0)); [apply Permutation_refl|].
  eapply Permutation_trans; [apply perm_skip; exact IH|apply perm_swap].
Qed.

Lemma fold_sort_insert_permutation (compare : A -> A -> number) (l : list A) :
  forall acc,
    Permutation (fold_left (fun sorted x => sort_insert compare x sorted) l acc)
                (l ++ acc).
Proof.
  induction l as [|x l IH]; intros acc; simpl; [apply Permutation_refl|].
  eapply Permutation_trans; [apply IH|].
  eapply Permutation_trans;
    [apply Permutation_app_head; apply sort_insert_permutation|].
  apply Permutation_sym, Permutation_middle.
Qed.

(** [sort] rearranges the array and loses or adds no element. *)
Lemma Array_sort_permutation (compare : A -> A -> number) (l : list A) :
  Permutation (Array_sort compare l) l.
Proof.
  unfold Array_sort.
  eapply Permutation_trans; [apply fold_sort_insert_permutation|].
  rewrite app_nil_r. apply Permutation_refl.
Qed.

Lemma descending_test (x y : A) :
  finite_key x -> finite_key y ->
  if num_lt (descending x y) (Fin 0) then ranks_before x y else ranks_before y x.
Proof.
  intros [a Ha] [b Hb]. unfold descending, ranks_before. rewrite Ha, Hb. simpl.
  destruct (Qltb (b + - a) 0) eqn:E; rewrite negb_true_iff; apply Qltb_false.
  - apply Qltb_true in E. lra.
  - apply Qltb_false in E. lra.
Qed.

Lemma sort_insert_sorted (x : A) (l : list A) :
  finite_key x -> Forall finite_key l ->
  StronglySorted ranks_before l ->
  StronglySorted ranks_before (sort_insert descending x l).
Proof.
  intros Hx Hfin Hsorted.
  induction Hsorted as [|y l Hsorted IH Hy]; simpl.
  - constructor; constructor.
  - inversion Hfin as [|? ? Hyfin Hlfin]; subst.
    pose proof (descending_test x y Hx Hyfin) as Htest.
    destruct (num_lt (descending x y) (Fin 0)).
    + constructor; [constructor; assumption|].
      constructor; [exact Htest|].
      eapply Forall_impl; [|exact Hy].
      intros z Hz. unfold ranks_before in *. eapply num_ge_trans; eassumption.
    + constructor; [apply IH; exact Hlfin|].
      eapply Permutation_Forall;
        [apply Permutation_sym, sort_insert_permutation|].
      constructor; assumption.
Qed.

Lemma fold_sort_insert_sorted (l : list A) :
  forall acc,
    Forall finite_key l -> Forall finite_key acc ->
    StronglySorted ranks_before acc ->
    StronglySorted ranks_before
      (fold_left (fun sorted x => sort_insert descending x sorted) l acc).
Proof.
  induction l as [|x l IH]; intros acc Hl Hacc Hsorted; simpl; [exact Hsorted|].
  inversion Hl as [|? ? Hx Hl']; subst.
  apply IH; [exact Hl'| |apply sort_insert_sorted; assumption].
  eapply Permutation_Forall; [apply Permutation_sym, sort_insert_permutation|].
  constructor; assumption.
Qed.

(** Sorting finite keys with [(a, b) => b.key - a.key] leaves every
    element ranked before all the elements that follow it. *)
Lemma Array_sort_descending (l : list A) :
  Forall (fun x => exists q, key x = Fin q) l ->
  StronglySorted (fun a b => num_ge (key a) (key b) = true)
                 (Array_sort (fun a b => num_sub (key b) (key a)) l).
Proof.
  intros Hl. unfold Array_sort.
  apply (fold_sort_insert_sorted l []); [exact Hl|constructor|constructor].
Qed.

End Sorting.

(* ===================================================================== *)
(** * AtomSpace: further properties *)
(* ===================================================================== *)

Section AtomSpaceFurther.
Import AtomSpace.

Lemma query_body_preserves (d : nat -> Q) (c : nat) (atomName : string) (bound : number) :
  forall i results w,
    query_inv d c atomName i results w ->
    num_lt (num_of_nat i) bound = true ->
    exists results' w',
      query_body atomName i results w = Returned results' w' /\
      query_inv d c atomName (S i) results' w'.
Proof.
  intros i results w (Hd & Hcur & Hr) _.
  unfold query_body, random_truth_value, bind, Math_random, ret.
  eexists; eexists; split; [reflexivity|].
  unfold query_inv. cbn [draws cursor].
  split; [exact Hd|]. split; [lia|].
  rewrite seq_S, map_app, <- Hr. unfold push. f_equal.
  cbn [map Nat.add]. unfold nth_hit. rewrite Hd, Hcur.
  replace (S (c + (2 * i + 1)))%nat with (c + (2 * i + 2))%nat by lia.
  reflexivity.
Qed.

(** [queryAtoms] always returns, and its result is this one. *)
Lemma queryAtoms_returns (context : Context) (itemIndex : nat) (w : World) :
  exists n w',
    queryAtoms context itemIndex w =
      Returned
        {| QueryAtoms.operation := "queryAtoms";
           QueryAtoms.query := atomName (getNodeParameter context itemIndex);
           QueryAtoms.results :=
             map (nth_hit (draws w) (cursor w)
                          (atomName (getNodeParameter context itemIndex)))
                 (seq 0 n);
           QueryAtoms.totalCount := n |}
        w' /\
    trip_count
      (Math_min (maxResults (getNodeParameter context itemIndex))
                (num_of_Z (Math_floor (draws w (cursor w) * 10) + 1)))
      n.
Proof.
  unfold queryAtoms, bind at 1, Math_random.
  set (name := atomName (getNodeParameter context itemIndex)).
  set (bound := Math_min _ _).
  set (w1 := mkWorld _ _ _).
  destruct (for_lt_invariant bound (query_body name)
              (query_inv (draws w) (cursor w) name)
              (query_body_preserves (draws w) (cursor w) name bound)
              [] w1 (Math_min_not_PosInf _ _))
    as (n & results & w' & Hrun & (Hd & Hcur & Hr) & Htrip).
  { split; [reflexivity|]. split; [simpl; lia|reflexivity]. }
  unfold bind. rewrite Hrun. unfold ret.
  exists n, w'. split; [|exact Htrip].
  rewrite Hr, length_map, length_seq. reflexivity.
Qed.

(** A loop bounded by [Math.min(x, k)] with [k >= 1] runs at least once
    exactly when [x] is positive. *)
Lemma trip_count_zero (x : number) (z : Z) (n : nat) :
  (1 <= z)%Z ->
  trip_count (Math_min x (num_of_Z z)) n ->
  (n = 0%nat <-> num_lt (Fin 0) x = false).
Proof.
  intros Hz [Hstop Hbelow].
  assert (H0z : inject_Z 0 < inject_Z z) by (rewrite <- Zlt_Qlt; lia).
  assert (Hfirst : num_lt (num_of_nat 0) (Math_min x (num_of_Z z)) = num_lt (Fin 0) x).
  { unfold num_of_nat, num_of_Z. change (Z.of_nat 0) with 0%Z.
    change (Fin 0) with (Fin (inject_Z 0)).
    destruct x as [| |q|]; simpl; try reflexivity.
    - destruct (Qltb (inject_Z z) q) eqn:E; simpl; [|reflexivity].
      apply Qltb_true in E.
      transitivity true; [apply Qltb_true; exact H0z|].
      symmetry. apply Qltb_true. eapply Qlt_trans; eassumption.
    - apply Qltb_true. exact H0z. }
  split.
  - intros ->. rewrite <- Hfirst. exact Hstop.
  - intros Hx. destruct n as [|n]; [reflexivity|].
    specialize (Hbelow 0%nat (Nat.lt_0_succ n)). congruence.
Qed.


Lemma atomspace_dispatch (context : Context) (i : nat) (op : string) (w : World) :
  if known_operation op
  then exists r w', dispatch context i op w = Returned r w' /\
                    result_operation r = Some op
  else dispatch context i op w = Thrown ("Unknown operation: " ++ op) w.
Proof.
  unfold known_operation, dispatch. cbn [existsb].
  destruct (op =? "addAtom")%string eqn:E1.
  { apply String.eqb_eq in E1. subst op. cbn [orb].
    unfold addAtom, bind, Date_now, Math_random, ret.
    eexists; eexists; split; reflexivity. }
  destruct (op =? "queryAtoms")%string eqn:E2.
  { apply String.eqb_eq in E2. subst op. cbn [orb].
    destruct (queryAtoms_returns context i w) as (n & w' & Hrun & _).
    unfold bind. rewrite Hrun. eexists; eexists; split; reflexivity. }
  destruct (op =? "patternMatch")%string eqn:E3.
  { apply String.eqb_eq in E3. subst op. cbn [orb].
    destruct (patternMatch_returns context i w) as (n & w' & Hrun & _).
    unfold bind. rewrite Hrun. eexists; eexists; split; reflexivity. }
  destruct (op =? "getTruthValue")%string eqn:E4.
  { apply String.eqb_eq in E4. subst op. cbn [orb].
    unfold getTruthValue, random_truth_value, bind, Math_random, ret.
    eexists; eexists; split; reflexivity. }
  destruct (op =? "setTruthValue")%string eqn:E5.
  { apply String.eqb_eq in E5. subst op. cbn [orb].
    unfold setTruthValue, random_truth_value, bind, Math_random, ret.
    eexists; eexists; split; reflexivity. }
  reflexivity.
Qed.

(** A result of the [switch] is what the method named by the operation
    returned for this very item. *)
Lemma atomspace_dispatch_output (context : Context) (i : nat) (w : World)
      (r : Result) (w' : World) :
  dispatch context i (operation (getNodeParameter context i)) w = Returned r w' ->
  atomspace_item_output context i w {| json := r; pairedItem := i |} w'.
Proof.
  intros Hrun. split; [reflexivity|]. cbn zeta. cbn [json].
  revert Hrun. generalize (operation (getNodeParameter context i)) as op.
  intros op. unfold dispatch.
  destruct (op =? "addAtom")%string eqn:E1.
  { apply String.eqb_eq in E1. unfold bind.
    destruct (addAtom context i w) as [x w1| |]; try discriminate.
    unfold ret. intros Hrun. injection Hrun as <- <-. split; [exact E1|reflexivity]. }
  destruct (op =? "queryAtoms")%string eqn:E2.
  { apply String.eqb_eq in E2. unfold bind.
    destruct (queryAtoms context i w) as [x w1| |]; try discriminate.
    unfold ret. intros Hrun. injection Hrun as <- <-. split; [exact E2|reflexivity]. }
  destruct (op =? "patternMatch")%string eqn:E3.
  { apply String.eqb_eq in E3. unfold bind.
    destruct (patternMatch context i w) as [x w1| |]; try discriminate.
    unfold ret. intros Hrun. injection Hrun as <- <-. split; [exact E3|reflexivity]. }
  destruct (op =? "getTruthValue")%string eqn:E4.
  { apply String.eqb_eq in E4. unfold bind.
    destruct (getTruthValue context i w) as [x w1| |]; try discriminate.
    unfold ret. intros Hrun. injection Hrun as <- <-. split; [exact E4|reflexivity]. }
  destruct (op =? "setTruthValue")%string eqn:E5.
  { apply String.eqb_eq in E5. unfold bind.
    destruct (setTruthValue context i w) as [x w1| |]; try discriminate.
    unfold ret. intros Hrun. injection Hrun as <- <-. split; [exact E5|reflexivity]. }
  discriminate.
Qed.

(** What one iteration of [execute] does with item [i]. *)
Lemma atomspace_execute_body (context : Context) (i : nat)
      (returnData : list ExecutionData) (w : World) :
  let op := operation (getNodeParameter context i) in
  (known_operation op = true ->
   exists r w',
     execute_body context i returnData w
       = Returned (push returnData {| json := r; pairedItem := i |}) w' /\
     result_operation r = Some op /\
     atomspace_item_output context i w {| json := r; pairedItem := i |} w') /\
  (known_operation op = false ->
   execute_body context i returnData w =
     if continueOnFail context
     then Returned (push returnData
                      {| json := OfError ("Unknown operation: " ++ op);
                         pairedItem := i |}) w
     else Thrown ("Unknown operation: " ++ op) w).
Proof.
  intros op. pose proof (atomspace_dispatch context i op w) as Hd.
  unfold execute_body, try_catch, bind. fold op.
  split; intros Hknown; rewrite Hknown in Hd.
  - destruct Hd as (r & w' & Hrun & Hop). rewrite Hrun.
    exists r, w'. split; [reflexivity|]. split; [exact Hop|].
    apply atomspace_dispatch_output. exact Hrun.
  - rewrite Hd. destruct (continueOnFail context); reflexivity.
Qed.

Lemma atomspace_entry_pushed (context : Context) (i : nat)
      (returnData : list ExecutionData) (e : ExecutionData) (w w' : World) :
  atomspace_execute_inv context i returnData w ->
  atomspace_entry_ok context i e ->
  atomspace_execute_inv context (S i) (push returnData e) w'.
Proof.
  intros [Hlen Hall] He. split; [rewrite length_push; congruence|].
  intros k e' Hk. unfold push in Hk.
  destruct (Nat.lt_ge_cases k (List.length returnData)) as [Hlt|Hge].
  - rewrite nth_error_app1 in Hk by exact Hlt. apply Hall. exact Hk.
  - rewrite nth_error_app2 in Hk by exact Hge.
    destruct (k - List.length returnData)%nat as [|d] eqn:Hd; simpl in Hk.
    + injection Hk as <-. assert (k = i) by lia. subst k. exact He.
    + destruct d; discriminate.
Qed.

(** X8: whenever [continueOnFail] is set, or every item names one of the
    five operations, [execute] returns a single list holding exactly one
    output per input item, in input order: the output at position [k] is
    paired with item [k] and is what the method named by item [k]'s
    operation returns when called with the context and [k] in the world
    the items before it left, or [{ error: "Unknown operation: ..." }]
    (and no draw consumed) when the operation is none of the five. *)
Theorem atomspace_execute_outputs (context : Context) (w : World) :
  continueOnFail context = true \/
  (forall k, (k < List.length (getInputData context))%nat ->
             known_operation (operation (getNodeParameter context k)) = true) ->
  exists returnData w',
    execute context w = Returned [returnData] w' /\
    List.length returnData = List.length (getInputData context) /\
    (forall k e, nth_error returnData k = Some e -> atomspace_entry_ok context k e) /\
    atomspace_outputs context w returnData w'.
Proof.
  intros Hmode.
  set (n := List.length (getInputData context)).
  set (Inv := fun (i : nat) (rd : list ExecutionData) (w0 : World) =>
                atomspace_execute_inv context i rd w0 /\
                atomspace_outputs context w rd w0).
  assert (Hpreserves :
            forall i rd w0,
              Inv i rd w0 ->
              num_lt (num_of_nat i) (num_of_nat n) = true ->
              exists rd' w1,
                execute_body context i rd w0 = Returned rd' w1 /\
                Inv (S i) rd' w1).
  { intros i rd w0 [Hinv Hout] Hguard.
    apply num_lt_nat in Hguard.
    assert (Hlen : List.length rd = i) by exact (proj1 Hinv).
    destruct (atomspace_execute_body context i rd w0) as [Hknown Hunknown].
    destruct (known_operation (operation (getNodeParameter context i))) eqn:E.
    - destruct (Hknown eq_refl) as (r & w1 & Hbody & Hop & Hitem).
      eexists; eexists; split; [exact Hbody|]. split.
      + eapply atomspace_entry_pushed; [exact Hinv|].
        split; [reflexivity|]. cbn zeta. rewrite E. exact Hop.
      + eapply atomspace_outputs_push; [exact Hout|].
        rewrite Hlen. exact Hitem.
    - assert (Hcontinue : continueOnFail context = true).
      { destruct Hmode as [Hc|Hall]; [exact Hc|].
        specialize (Hall i Hguard). congruence. }
      rewrite (Hunknown eq_refl), Hcontinue.
      eexists; eexists; split; [reflexivity|]. split.
      + eapply atomspace_entry_pushed; [exact Hinv|].
        split; [reflexivity|]. cbn zeta. rewrite E. reflexivity.
      + eapply atomspace_outputs_push; [exact Hout|].
        rewrite Hlen. split; [reflexivity|]. cbn zeta. cbn [json].
        split; [exact E|]. split; reflexivity. }
  assert (Hstart : Inv 0%nat [] w).
  { split; [|constructor]. split; [reflexivity|]. intros [|k] e Hk; discriminate. }
  assert (Hfinite : num_of_nat n <> PosInf) by discriminate.
  destruct (for_lt_invariant (num_of_nat n) (execute_body context)
              Inv Hpreserves [] w Hfinite Hstart)
    as (m & returnData & w' & Hrun & [[Hlen Hall] Hout] & Htrip).
  apply trip_count_items in Htrip. rewrite Htrip in Hlen.
  unfold execute, bind. fold n. rewrite Hrun.
  exists returnData, w'. split; [reflexivity|]. split; [exact Hlen|].
  split; [exact Hall|exact Hout].
Qed.

(** X8 on three items with [continueOnFail] set, the draws being [1/2],
    [1/3], [1/4], ...: the truth value of [Human] is read from the first
    two draws, the one of [Animal] is set with the next two as the old
    value, and the unknown operation of the third item gives an error
    output. *)
Lemma atomspace_execute_outputs_witness :
  exists w',
    execute (three_item_context true) world_harmonic
      = Returned
          [[ {| json := OfGetTruthValue
                          {| GetTruthValue.operation := "getTruthValue";
                             GetTruthValue.atomName := "Human";
                             GetTruthValue.truthValue :=
                               {| TruthValue.strength := Some (Fin (1 # 2));
                                  TruthValue.confidence := Some (Fin (1 # 3)) |};
                             GetTruthValue.exists_ := true |};
                pairedItem := 0 |};
             {| json := OfSetTruthValue
                          {| SetTruthValue.operation := "setTruthValue";
                             SetTruthValue.atomName := "Animal";
                             SetTruthValue.oldTruthValue :=
                               {| TruthValue.strength := Some (Fin (1 # 4));
                                  TruthValue.confidence := Some (Fin (1 # 5)) |};
                             SetTruthValue.newTruthValue := tv_06_07;
                             SetTruthValue.success := true |};
                pairedItem := 1 |};
             {| json := OfError "Unknown operation: removeAtom"; pairedItem := 2 |} ]]
          w' /\
    cursor w' = 4%nat.
Proof.
  destruct (atomspace_execute_outputs (three_item_context true) world_harmonic
              (or_introl eq_refl))
    as (returnData & w' & Hrun & Hlen & Hall & Hout).
  pose proof Hrun as Hexec. vm_compute in Hrun. injection Hrun as Hdata Hworld.
  rewrite <- Hdata in Hexec.
  exists w'. split; [exact Hexec|]. rewrite <- Hworld. reflexivity.
Defined.



(** X1: [queryAtoms] returns at most ten results (the draws being those
    of [Math.random()]), at most [maxResults] of them when [maxResults]
    is a non-negative integer, and none exactly when [maxResults] is not
    positive; [totalCount] is their number and [query] the atom name
    asked for. *)
Theorem queryAtoms_result_count (context : Context) (itemIndex : nat) (w : World) :
  unit_draws w ->
  exists r w',
    queryAtoms context itemIndex w = Returned r w' /\
    QueryAtoms.query r = atomName (getNodeParameter context itemIndex) /\
    QueryAtoms.totalCount r = List.length (QueryAtoms.results r) /\
    (List.length (QueryAtoms.results r) <= 10)%nat /\
    (forall m : nat,
        num_eq (maxResults (getNodeParameter context itemIndex)) (num_of_nat m) ->
        (List.length (QueryAtoms.results r) <= m)%nat) /\
    (QueryAtoms.results r = [] <->
     num_lt (Fin 0) (maxResults (getNodeParameter context itemIndex)) = false).
Proof.
  intros Hunit.
  destruct (queryAtoms_returns context itemIndex w) as (n & w' & Hrun & Htrip).
  destruct (Hunit (cursor w)) as [H0 H1].
  pose proof (floor_unit_draw _ 10 eq_refl H0 H1) as Hfloor.
  change (inject_Z 10) with 10 in Hfloor.
  eexists; eexists. split; [exact Hrun|].
  cbn [QueryAtoms.query QueryAtoms.totalCount QueryAtoms.results].
  rewrite length_map, length_seq.
  split; [reflexivity|]. split; [reflexivity|]. split; [|split].
  - apply trip_count_capped_Z in Htrip. lia.
  - intros m Hm. destruct n as [|k]; [lia|].
    pose proof (trip_count_below _ _ _ Htrip) as Hbelow.
    rewrite (num_lt_eq_r _ _ _ Hm) in Hbelow. apply num_lt_nat in Hbelow. lia.
  - rewrite <- (trip_count_zero _ _ n (proj1 Hfloor) Htrip).
    destruct n; simpl; split; intros H; (reflexivity || discriminate).
Qed.

(** X1 at [maxResults = 3] with draws [0.9]: three results. *)
Lemma queryAtoms_result_count_witness :
  exists r w',
    queryAtoms (query_context (Fin 3)) 0 (world_const (9 # 10) 0) = Returned r w' /\
    QueryAtoms.totalCount r = 3%nat /\
    (List.length (QueryAtoms.results r) <= 3)%nat.
Proof.
  assert (Hunit : unit_draws (world_const (9 # 10) 0)).
  { intros n. split; [discriminate|reflexivity]. }
  destruct (queryAtoms_result_count (query_context (Fin 3)) 0 _ Hunit)
    as (r & w' & Hrun & _ & Hcount & _ & Hle & _).
  exists r, w'. split; [exact Hrun|].
  split; [|apply (Hle 3%nat); reflexivity].
  vm_compute in Hrun. injection Hrun as <- _. reflexivity.
Defined.

(** X2: the [k]-th result of [queryAtoms] is the concept node
    [atom_k_<name>] named [<name>_k], with a truth value whose strength
    and confidence are draws in [[0, 1)]; so the atom ids, and the atom
    names, of the results are pairwise distinct. *)
Theorem queryAtoms_results (context : Context) (itemIndex : nat) (w : World) :
  unit_draws w ->
  exists r w',
    queryAtoms context itemIndex w = Returned r w' /\
    (forall k h,
        nth_error (QueryAtoms.results r) k = Some h ->
        QueryHit.atomId h
          = "atom_" ++ show_nat k ++ "_" ++ atomName (getNodeParameter context itemIndex) /\
        QueryHit.atomType h = "ConceptNode" /\
        QueryHit.atomName h
          = atomName (getNodeParameter context itemIndex) ++ "_" ++ show_nat k /\
        drawn_truth_value (QueryHit.truthValue h)) /\
    NoDup (map QueryHit.atomId (QueryAtoms.results r)) /\
    NoDup (map QueryHit.atomName (QueryAtoms.results r)).
Proof.
  intros Hunit.
  destruct (queryAtoms_returns context itemIndex w) as (n & w' & Hrun & _).
  eexists; eexists. split; [exact Hrun|].
  cbn [QueryAtoms.results]. split; [|split].
  - intros k h Hk. apply nth_error_map_seq in Hk. destruct Hk as [_ ->].
    cbn [nth_hit QueryHit.atomId QueryHit.atomType QueryHit.atomName QueryHit.truthValue].
    repeat (split; [reflexivity|]).
    eexists; eexists. split; [reflexivity|]. split; [reflexivity|].
    repeat split; apply Hunit.
  - rewrite map_map. apply NoDup_map_seq. intros i j Hij.
    cbn [nth_hit QueryHit.atomId] in Hij.
    apply string_append_cancel_l in Hij.
    apply string_append_cancel_r in Hij.
    apply show_nat_injective. exact Hij.
  - rewrite map_map. apply NoDup_map_seq. intros i j Hij.
    cbn [nth_hit QueryHit.atomName] in Hij.
    apply string_append_cancel_l in Hij.
    apply (string_append_cancel_l "_") in Hij.
    apply show_nat_injective. exact Hij.
Qed.

(** X2 at [maxResults = 2] on the atom name [Human]. *)
Lemma queryAtoms_results_witness :
  exists r w',
    queryAtoms (query_context (Fin 2)) 0 (world_const (1 # 2) 0) = Returned r w' /\
    map QueryHit.atomId (QueryAtoms.results r) = ["atom_0_Human"; "atom_1_Human"] /\
    NoDup (map QueryHit.atomId (QueryAtoms.results r)).
Proof.
  assert (Hunit : unit_draws (world_const (1 # 2) 0)).
  { intros n. split; [discriminate|reflexivity]. }
  destruct (queryAtoms_results (query_context (Fin 2)) 0 _ Hunit)
    as (r & w' & Hrun & _ & Hids & _).
  exists r, w'. split; [exact Hrun|]. split; [|exact Hids].
  vm_compute in Hrun. injection Hrun as <- _. reflexivity.
Defined.

(** X3: every truth value [patternMatch] returns has a strength and a
    confidence that are draws in [[0, 1)], and the match ids are pairwise
    distinct. *)
Theorem patternMatch_matches (context : Context) (itemIndex : nat) (w : World) :
  unit_draws w ->
  exists r w',
    patternMatch context itemIndex w = Returned r w' /\
    (forall m, In m (PatternMatch.matches r) -> drawn_truth_value (Match.truthValue m)) /\
    NoDup (map Match.matchId (PatternMatch.matches r)).
Proof.
  intros Hunit.
  destruct (patternMatch_returns context itemIndex w) as (n & w' & Hrun & _).
  eexists; eexists. split; [exact Hrun|].
  cbn [PatternMatch.matches]. split.
  - intros m Hm. apply in_map_iff in Hm. destruct Hm as (k & <- & _).
    cbn [nth_match Match.truthValue].
    eexists; eexists. split; [reflexivity|]. split; [reflexivity|].
    repeat split; apply Hunit.
  - rewrite map_map. apply NoDup_map_seq. intros i j Hij.
    cbn [nth_match Match.matchId] in Hij.
    apply string_append_cancel_l in Hij.
    apply show_nat_injective. exact Hij.
Qed.

(** X3 at [maxResults = 10] with draws [0.5]: three matches. *)
Lemma patternMatch_matches_witness :
  exists r w',
    patternMatch (pattern_context (Fin 10)) 0 (world_const (1 # 2) 0) = Returned r w' /\
    map Match.matchId (PatternMatch.matches r) = ["match_0"; "match_1"; "match_2"] /\
    NoDup (map Match.matchId (PatternMatch.matches r)).
Proof.
  assert (Hunit : unit_draws (world_const (1 # 2) 0)).
  { intros n. split; [discriminate|reflexivity]. }
  destruct (patternMatch_matches (pattern_context (Fin 10)) 0 _ Hunit)
    as (r & w' & Hrun & _ & Hids).
  exists r, w'. split; [exact Hrun|]. split; [|exact Hids].
  vm_compute in Hrun. injection Hrun as <- _. reflexivity.
Defined.

(** X4: [patternMatch] returns no match exactly when [maxResults] is not
    positive (zero, negative or [NaN]); any positive [maxResults], even
    below one, yields at least one match. *)
Theorem patternMatch_empty_iff (context : Context) (itemIndex : nat) (w : World) :
  unit_draws w ->
  exists r w',
    patternMatch context itemIndex w = Returned r w' /\
    (PatternMatch.matches r = [] <->
     num_lt (Fin 0) (maxResults (getNodeParameter context itemIndex)) = false).
Proof.
  intros Hunit.
  destruct (patternMatch_returns context itemIndex w) as (n & w' & Hrun & Htrip).
  destruct (Hunit (cursor w)) as [H0 H1].
  pose proof (floor_unit_draw _ 5 eq_refl H0 H1) as Hfloor.
  change (inject_Z 5) with 5 in Hfloor.
  eexists; eexists. split; [exact Hrun|].
  cbn [PatternMatch.matches].
  rewrite <- (trip_count_zero _ _ n (proj1 Hfloor) Htrip).
  destruct n; simpl; split; intros H; (reflexivity || discriminate).
Qed.

(** X4 at [maxResults = 0]: no match. *)
Lemma patternMatch_empty_iff_witness :
  exists r w',
    patternMatch (pattern_context (Fin 0)) 0 (world_const (1 # 2) 0) = Returned r w' /\
    PatternMatch.matches r = [].
Proof.
  assert (Hunit : unit_draws (world_const (1 # 2) 0)).
  { intros n. split; [discriminate|reflexivity]. }
  destruct (patternMatch_empty_iff (pattern_context (Fin 0)) 0 _ Hunit)
    as (r & w' & Hrun & Hiff).
  exists r, w'. split; [exact Hrun|]. apply Hiff. reflexivity.
Defined.

End AtomSpaceFurther.

(* ===================================================================== *)
(** * ReasoningEngine: further properties *)
(* ===================================================================== *)

Section ReasoningEngineFurther.
Import ReasoningEngine.

Lemma nth_error_push {A : Type} (l : list A) (x y : A) (k : nat) :
  nth_error (push l x) k = Some y ->
  nth_error l k = Some y \/ (k = List.length l /\ y = x).
Proof.
  intros Hk. unfold push in Hk.
  destruct (Nat.lt_ge_cases k (List.length l)) as [Hlt|Hge].
  - rewrite nth_error_app1 in Hk by exact Hlt. left. exact Hk.
  - rewrite nth_error_app2 in Hk by exact Hge.
    destruct (k - List.length l)%nat as [|d] eqn:Hd; simpl in Hk.
    + injection Hk as <-. right. split; [lia|reflexivity].
    + destruct d; discriminate.
Qed.

(** *** Forward chaining *)

Lemma forward_body_steps (params : Params) :
  confidenceThreshold params <> NaN ->
  forall i acc w,
    forward_steps_inv params i acc w ->
    num_lt (num_of_nat i) (Math_min (maxSteps params) (Fin 5)) = true ->
    exists acc' w',
      forward_body params i acc w = Returned acc' w' /\
      forward_steps_inv params (S i) acc' w'.
Proof.
  intros Hthr i [steps conclusions] w (Hlen & Hc & Hsteps) _.
  cbn [fst snd] in Hlen, Hc, Hsteps.
  unfold forward_body, bind, Math_random. cbn [Step.confidence].
  rewrite (Math_max_ge_left _ _ Hthr).
  eexists; eexists; split; [reflexivity|].
  unfold forward_steps_inv; cbn [fst snd].
  split; [rewrite length_push; congruence|]. split.
  - unfold push. rewrite map_app, <- Hc. reflexivity.
  - intros k s Hk. apply nth_error_push in Hk.
    destruct Hk as [Hk|[-> ->]]; [apply Hsteps; exact Hk|].
    rewrite Hlen. repeat split; reflexivity.
Qed.

(** X5: forward chaining keeps every step: the conclusions are, in
    order, the conclusions of the steps (same statement and confidence,
    derivation naming the step's premise and rule), so
    [validConclusions = totalSteps]; the steps are numbered from one and
    carry the rule, premise and conclusion of their number; there is no
    step at all exactly when [maxSteps] is not positive. *)
Theorem forward_conclusions_mirror_steps
        (context : Context) (itemIndex : nat) (w : World) :
  exists r w',
    performForwardChaining context itemIndex w = Returned r w' /\
    Forward.conclusions r = map conclusion_of (Forward.steps r) /\
    Forward.validConclusions r = Forward.totalSteps r /\
    (forall k s,
        nth_error (Forward.steps r) k = Some s ->
        Step.stepNumber s = (k + 1)%nat /\
        Step.rule s = "Rule_" ++ show_nat (k + 1) /\
        Step.premise s = "Premise_" ++ show_nat (k + 1) /\
        Step.conclusion s = "Conclusion_" ++ show_nat (k + 1)) /\
    (Forward.steps r = [] <->
     num_lt (Fin 0) (maxSteps (getReasoningParams context itemIndex)) = false).
Proof.
  set (params := getReasoningParams context itemIndex).
  assert (Hstart : forward_steps_inv params 0 ([], []) w).
  { split; [reflexivity|]. split; [reflexivity|]. intros [|k] s Hk; discriminate. }
  destruct (for_lt_invariant
              (Math_min (maxSteps params) (Fin 5)) (forward_body params)
              (forward_steps_inv params)
              (forward_body_steps params (threshold_not_NaN context itemIndex))
              ([], []) w (Math_min_not_PosInf _ _) Hstart)
    as (n & [steps conclusions] & w' & Hrun & (Hlen & Hc & Hsteps) & Htrip).
  cbn [fst snd] in *.
  unfold performForwardChaining, bind. fold params. rewrite Hrun.
  unfold Date_now, ret. eexists; eexists; split; [reflexivity|].
  cbn [Forward.steps Forward.conclusions Forward.validConclusions Forward.totalSteps].
  split; [exact Hc|]. split; [rewrite Hc, length_map; reflexivity|].
  split; [exact Hsteps|].
  rewrite <- (trip_count_zero _ 5 n ltac:(lia) Htrip). rewrite <- Hlen.
  destruct steps; simpl; split; intros H; (reflexivity || discriminate).
Qed.

(** *** Backward chaining *)

Lemma proof_steps_from_push (l : list Subgoal.t) (s : Subgoal.t) :
  forall k,
    proof_steps_from k (push l s) =
      if is_proven (Subgoal.status s)
      then push (proof_steps_from k l) (proof_step_of (k + List.length l) s)
      else proof_steps_from k l.
Proof.
  unfold push. induction l as [|x l IH]; intros k; simpl.
  - rewrite Nat.add_0_r. destruct (is_proven (Subgoal.status s)); reflexivity.
  - rewrite IH. replace (S k + List.length l)%nat with (k + S (List.length l))%nat by lia.
    destruct (is_proven (Subgoal.status x)), (is_proven (Subgoal.status s)); reflexivity.
Qed.

Lemma proof_steps_confidences (l : list Subgoal.t) :
  forall k,
    map ProofStep.confidence (proof_steps_from k l) = proven_confidences l.
Proof.
  unfold proven_confidences.
  induction l as [|x l IH]; intros k; simpl; [reflexivity|].
  destruct (is_proven (Subgoal.status x)); simpl; rewrite IH; reflexivity.
Qed.

Lemma backward_body_steps (bound : number) :
  forall i acc w,
    backward_steps_inv i acc w ->
    num_lt (num_of_nat i) bound = true ->
    exists acc' w',
      backward_body i acc w = Returned acc' w' /\
      backward_steps_inv (S i) acc' w'.
Proof.
  intros i [subgoals proofSteps] w (Hlen & Hp & Hgoals) _.
  cbn [fst snd] in Hlen, Hp, Hgoals.
  unfold backward_body, bind, Math_random. cbn [draws cursor clock Subgoal.status].
  set (s := {| Subgoal.goal := _; Subgoal.status := _; Subgoal.confidence := _ |}).
  assert (Hnew : backward_steps_inv (S i)
                   (push subgoals s,
                    if is_proven (Subgoal.status s)
                    then push proofSteps (proof_step_of i s) else proofSteps)
                   (mkWorld (draws w) (S (S (cursor w))) (clock w))).
  { unfold backward_steps_inv; cbn [fst snd].
    split; [rewrite length_push; congruence|]. split.
    - rewrite proof_steps_from_push, Hlen, <- Hp. reflexivity.
    - intros k s' Hk. apply nth_error_push in Hk.
      destruct Hk as [Hk|[-> ->]]; [apply Hgoals; exact Hk|].
      rewrite Hlen. reflexivity. }
  unfold s in *. cbn [Subgoal.status] in *.
  destruct (Qltb (3 # 10) (draws w (cursor w))); cbn [is_proven] in *;
    eexists; eexists; (split; [reflexivity|exact Hnew]).
Qed.

(** X6: backward chaining examines at most three subgoals, named
    [Subgoal_1], [Subgoal_2], ...; its proof steps are exactly the proven
    subgoals, in order, each under the number, the goal and the
    confidence of its subgoal; there is no subgoal at all exactly when
    [maxSteps] is not positive. *)
Theorem backward_proof_steps (context : Context) (itemIndex : nat) (w : World) :
  exists r w',
    performBackwardChaining context itemIndex w = Returned r w' /\
    (List.length (Backward.subgoals r) <= 3)%nat /\
    (forall k s,
        nth_error (Backward.subgoals r) k = Some s ->
        Subgoal.goal s = "Subgoal_" ++ show_nat (k + 1)) /\
    Backward.proofSteps r = proof_steps_from 0 (Backward.subgoals r) /\
    map ProofStep.confidence (Backward.proofSteps r)
      = proven_confidences (Backward.subgoals r) /\
    (Backward.subgoals r = [] <->
     num_lt (Fin 0) (maxSteps (getReasoningParams context itemIndex)) = false).
Proof.
  set (params := getReasoningParams context itemIndex).
  assert (Hstart : backward_steps_inv 0 ([], []) w).
  { split; [reflexivity|]. split; [reflexivity|]. intros [|k] s Hk; discriminate. }
  destruct (for_lt_invariant
              (Math_min (maxSteps params) (Fin 3)) backward_body
              backward_steps_inv (backward_body_steps _)
              ([], []) w (Math_min_not_PosInf _ _) Hstart)
    as (n & [subgoals proofSteps] & w' & Hrun & (Hlen & Hp & Hgoals) & Htrip).
  cbn [fst snd] in *.
  unfold performBackwardChaining, bind. fold params. rewrite Hrun.
  unfold Date_now, ret. eexists; eexists; split; [reflexivity|].
  cbn [Backward.subgoals Backward.proofSteps].
  split; [rewrite Hlen; exact (trip_count_capped _ 3 _ Htrip)|].
  split; [exact Hgoals|]. split; [exact Hp|].
  split; [rewrite Hp; apply proof_steps_confidences|].
  rewrite <- (trip_count_zero _ 3 n ltac:(lia) Htrip). rewrite <- Hlen.
  destruct subgoals; simpl; split; intros H; (reflexivity || discriminate).
Qed.

Lemma num_ge_Math_min (a b : Q) (t : number) :
  num_ge (Math_min (Fin a) (Fin b)) t = true <->
  num_ge (Fin a) t = true /\ num_ge (Fin b) t = true.
Proof.
  destruct (Math_min_Fin a b) as (m & Hm & Hma & Hmb & Hor). rewrite Hm.
  destruct t as [| |c|]; simpl; try tauto; try (split; [intros; split|]; congruence).
  rewrite !negb_true_iff, !Qltb_false. split.
  - intros Hc. split; eapply Qle_trans; eassumption.
  - intros [Hca Hcb]. destruct Hor as [Hor|Hor]; injection Hor as ->; assumption.
Qed.

Lemma fold_Math_min_ge (l : list number) (t : number) :
  forall a : Q,
    Forall (fun c => exists q, c = Fin q) l ->
    (num_ge (fold_left Math_min l (Fin a)) t = true <->
     num_ge (Fin a) t = true /\ forall c, In c l -> num_ge c t = true).
Proof.
  induction l as [|c l IH]; intros a Hfin; cbn [fold_left].
  - split; [intros H; split; [exact H|intros c []]|tauto].
  - inversion Hfin as [|? ? [q ->] Hfin']; subst.
    destruct (Math_min_Fin a q) as (m & Hm & _).
    pose proof (num_ge_Math_min a q t) as Hmin.
    rewrite Hm in *. rewrite (IH m Hfin'), Hmin. split.
    + intros [[Ha Hq] Hl]. split; [exact Ha|].
      intros c [<-|Hc]; [exact Hq|apply Hl; exact Hc].
    + intros [Ha Hl]. split; [split; [exact Ha|apply Hl; left; reflexivity]|].
      intros c Hc. apply Hl. right. exact Hc.
Qed.

(** X7: backward chaining reports the goal proven exactly when the
    confidence threshold is at most one and every proven subgoal has a
    confidence greater than or equal to the threshold; an unproven
    subgoal never counts against the goal. *)
Theorem backward_goal_proven_iff (context : Context) (itemIndex : nat) (w : World) :
  exists r w',
    performBackwardChaining context itemIndex w = Returned r w' /\
    (Backward.goalProven r = true <->
     num_le (confidenceThreshold (getReasoningParams context itemIndex)) (Fin 1) = true /\
     forall s,
       In s (Backward.subgoals r) ->
       Subgoal.status s = proven ->
       num_ge (Subgoal.confidence s)
              (confidenceThreshold (getReasoningParams context itemIndex)) = true).
Proof.
  destruct (performBackwardChaining_returns context itemIndex w)
    as (r & w' & Hrun & Hoverall & Hgoal & _ & Hdraws).
  exists r, w'. split; [exact Hrun|].
  rewrite Hgoal, Hoverall, overall_confidence_fold.
  assert (Hfin : Forall (fun c => exists q, c = Fin q)
                        (proven_confidences (Backward.subgoals r))).
  { apply proven_confidences_draws in Hdraws.
    eapply Forall_impl; [|exact Hdraws]. intros c [n ->]. eauto. }
  rewrite (fold_Math_min_ge _ _ 1 Hfin). unfold num_le.
  split; intros [Hone Hall]; (split; [exact Hone|]).
  - intros s Hs Hproven. apply Hall. unfold proven_confidences.
    apply in_map. apply filter_In. split; [exact Hs|]. rewrite Hproven. reflexivity.
  - intros c Hc. unfold proven_confidences in Hc.
    apply in_map_iff in Hc. destruct Hc as (s & <- & Hs).
    apply filter_In in Hs. destruct Hs as [Hs Hproven].
    apply Hall; [exact Hs|]. destruct (Subgoal.status s); [reflexivity|discriminate].
Qed.

(** *** Abductive reasoning *)

Lemma abductive_body_preserves (d : nat -> Q) (c : nat) (goalQuery : string)
      (bound : number) :
  forall i hypotheses w,
    abductive_inv d c goalQuery i hypotheses w ->
    num_lt (num_of_nat i) bound = true ->
    exists hypotheses' w',
      abductive_body goalQuery i hypotheses w = Returned hypotheses' w' /\
      abductive_inv d c goalQuery (S i) hypotheses' w'.
Proof.
  intros i hypotheses w (Hd & Hcur & Hh) _.
  unfold abductive_body, bind, Math_random, ret.
  eexists; eexists; split; [reflexivity|].
  unfold abductive_inv. cbn [draws cursor].
  split; [exact Hd|]. split; [lia|].
  rewrite seq_S, map_app, <- Hh. unfold push. f_equal.
  cbn [map Nat.add]. unfold nth_hypothesis. rewrite Hd, Hcur. reflexivity.
Qed.

(** [performAbductiveReasoning] always returns, and its result is this
    one. *)
Lemma performAbductiveReasoning_returns (context : Context) (itemIndex : nat) (w : World) :
  exists n w',
    let goal := goalQuery (getNodeParameter context itemIndex) in
    let hypotheses :=
      Array_sort by_plausibility
                 (map (nth_hypothesis (draws w) (cursor w) goal) (seq 0 n)) in
    performAbductiveReasoning context itemIndex w =
      Returned
        {| Abductive.reasoningType := "abductiveReasoning";
           Abductive.observation := goal;
           Abductive.inputKnowledge := inputKnowledge (getNodeParameter context itemIndex);
           Abductive.hypotheses := hypotheses;
           Abductive.bestExplanation := nth_error hypotheses 0;
           Abductive.timestamp := toISOString (clock w') |}
        w' /\
    trip_count
      (Math_min (maxResults (getReasoningParams context itemIndex)) (Fin 3)) n.
Proof.
  set (goal := goalQuery (getNodeParameter context itemIndex)).
  set (params := getReasoningParams context itemIndex).
  destruct (for_lt_invariant
              (Math_min (maxResults params) (Fin 3)) (abductive_body goal)
              (abductive_inv (draws w) (cursor w) goal)
              (abductive_body_preserves (draws w) (cursor w) goal _)
              [] w (Math_min_not_PosInf _ _))
    as (n & generated & w' & Hrun & (Hd & Hcur & Hh) & Htrip).
  { split; [reflexivity|]. split; [simpl; lia|reflexivity]. }
  exists n, w'. cbn zeta. split; [|exact Htrip].
  unfold performAbductiveReasoning, bind. fold goal params. rewrite Hrun.
  unfold Date_now, ret. rewrite Hh. reflexivity.
Qed.

Lemma generated_hypotheses_finite (d : nat -> Q) (c : nat) (goal : string) (n : nat) :
  Forall (fun h => exists q, AbductiveHypothesis.plausibility h = Fin q)
         (map (nth_hypothesis d c goal) (seq 0 n)).
Proof.
  apply Forall_forall. intros h Hh. apply in_map_iff in Hh.
  destruct Hh as (k & <- & _). simpl. eauto.
Qed.

(** X10: abductive reasoning returns at most three hypotheses, ranked by
    non-increasing plausibility: every hypothesis is at least as
    plausible as all those after it.  They are a rearrangement of
    [Hypothesis_1], [Hypothesis_2], ... as generated, each explaining the
    goal query, with the plausibility drawn for it; [observation] is the
    goal query. *)
Theorem abductive_hypotheses_ranked (context : Context) (itemIndex : nat) (w : World) :
  exists r w' n,
    performAbductiveReasoning context itemIndex w = Returned r w' /\
    Abductive.observation r = goalQuery (getNodeParameter context itemIndex) /\
    StronglySorted at_least_as_plausible (Abductive.hypotheses r) /\
    Permutation (Abductive.hypotheses r)
                (map (nth_hypothesis (draws w) (cursor w)
                                     (goalQuery (getNodeParameter context itemIndex)))
                     (seq 0 n)) /\
    List.length (Abductive.hypotheses r) = n /\
    (n <= 3)%nat.
Proof.
  destruct (performAbductiveReasoning_returns context itemIndex w)
    as (n & w' & Hrun & Htrip).
  cbn zeta in Hrun.
  eexists; exists w', n. split; [exact Hrun|].
  cbn [Abductive.observation Abductive.hypotheses].
  split; [reflexivity|]. split; [|split; [|split]].
  - apply (Array_sort_descending AbductiveHypothesis.plausibility).
    apply generated_hypotheses_finite.
  - apply Array_sort_permutation.
  - rewrite (Permutation_length (Array_sort_permutation _ _)).
    rewrite length_map, length_seq. reflexivity.
  - exact (trip_count_capped _ 3 _ Htrip).
Qed.

(** X11: the best explanation is the first hypothesis of the ranking: it
    is one of the hypotheses returned and at least as plausible as each
    of them; it is missing exactly when there is no hypothesis, which
    happens exactly when [maxResults] is not positive. *)
Theorem abductive_best_explanation (context : Context) (itemIndex : nat) (w : World) :
  exists r w',
    performAbductiveReasoning context itemIndex w = Returned r w' /\
    (forall best,
        Abductive.bestExplanation r = Some best ->
        In best (Abductive.hypotheses r) /\
        forall h, In h (Abductive.hypotheses r) -> at_least_as_plausible best h) /\
    (Abductive.bestExplanation r = None <-> Abductive.hypotheses r = []) /\
    (Abductive.hypotheses r = [] <->
     num_lt (Fin 0) (maxResults (getReasoningParams context itemIndex)) = false).
Proof.
  destruct (performAbductiveReasoning_returns context itemIndex w)
    as (n & w' & Hrun & Htrip).
  cbn zeta in Hrun.
  eexists; exists w'. split; [exact Hrun|].
  cbn [Abductive.bestExplanation Abductive.hypotheses].
  set (generated := map _ (seq 0 n)).
  pose proof (Array_sort_descending AbductiveHypothesis.plausibility generated
                (generated_hypotheses_finite _ _ _ n)) as Hsorted.
  pose proof (Array_sort_permutation by_plausibility generated) as Hperm.
  fold by_plausibility in Hsorted.
  change (fun a b => num_sub (AbductiveHypothesis.plausibility b)
                             (AbductiveHypothesis.plausibility a))
    with by_plausibility in Hsorted.
  assert (Hfinite : Forall (fun h => exists q, AbductiveHypothesis.plausibility h = Fin q)
                           (Array_sort by_plausibility generated)).
  { eapply Permutation_Forall; [apply Permutation_sym; exact Hperm|].
    apply generated_hypotheses_finite. }
  split; [|split].
  - intros best Hbest.
    destruct (Array_sort by_plausibility generated) as [|b rest]; [discriminate|].
    injection Hbest as ->. split; [left; reflexivity|].
    intros h [<-|Hh].
    + inversion Hfinite as [|? ? [q Hq] _]; subst.
      unfold at_least_as_plausible. rewrite Hq. simpl.
      rewrite negb_true_iff. apply Qltb_false. apply Qle_refl.
    + inversion Hsorted as [|? ? _ Hall]; subst.
      rewrite Forall_forall in Hall. apply Hall. exact Hh.
  - destruct (Array_sort by_plausibility generated); simpl;
      split; intros H; (reflexivity || discriminate).
  - rewrite <- (trip_count_zero _ 3 n ltac:(lia) Htrip).
    split; intros H.
    + rewrite H in Hperm. apply Permutation_nil in Hperm.
      apply (f_equal (@List.length _)) in Hperm. unfold generated in Hperm.
      rewrite length_map, length_seq in Hperm. exact Hperm.
    + subst n. reflexivity.
Qed.

(** *** Analogical reasoning *)

(** X12: whatever the domains and the parameters, analogical reasoning
    returns two analogies and one prediction, and the structural
    similarity lies between the similarities of the two analogies, hence
    in [[0, 1)] like the draws. *)
Theorem analogical_structural_similarity
        (context : Context) (itemIndex : nat) (w : World) :
  unit_draws w ->
  exists r w' s1 s2 m,
    performAnalogicalReasoning context itemIndex w = Returned r w' /\
    map Analogy.similarity (Analogical.analogies r) = [Fin s1; Fin s2] /\
    List.length (Analogical.predictions r) = 1%nat /\
    Analogical.structuralSimilarity r = Fin m /\
    ((s1 <= m /\ m <= s2) \/ (s2 <= m /\ m <= s1)) /\
    0 <= m /\ m < 1.
Proof.
  intros Hunit.
  unfold performAnalogicalReasoning, bind, Math_random, Date_now, ret.
  cbn [draws cursor clock].
  set (s1 := draws w (cursor w)).
  set (s2 := draws w (S (S (cursor w)))).
  destruct (Hunit (cursor w)) as [H1 H1'].
  destruct (Hunit (S (S (cursor w)))) as [H2 H2'].
  fold s1 in H1, H1'. fold s2 in H2, H2'.
  eexists; eexists; exists s1, s2; eexists.
  split; [reflexivity|].
  cbn [Analogical.analogies Analogical.predictions Analogical.structuralSimilarity
       map Analogy.similarity List.length fold_left num_add num_div_length].
  split; [reflexivity|]. split; [reflexivity|]. split; [reflexivity|].
  change (inject_Z (Z.of_nat 2)) with 2.
  assert (Hm : (0 + s1 + s2) / 2 == (s1 + s2) * (1 # 2)) by field.
  rewrite Hm. split; [|split].
  - destruct (Qlt_le_dec s1 s2); [left|right]; split; lra.
  - lra.
  - lra.
Qed.

(** X12 at draws giving both analogies the similarity [0.5]. *)
Lemma analogical_structural_similarity_witness :
  exists r w',
    performAnalogicalReasoning
      (reasoning_context "kb" (mkParamValues None None None None))
      0 world_three_proven = Returned r w' /\
    Analogical.structuralSimilarity r = Fin ((0 + (1 # 2) + (1 # 2)) / 2).
Proof.
  assert (Hunit : unit_draws world_three_proven).
  { intros n. do 6 (destruct n as [|n]; [split; (discriminate || reflexivity)|]).
    destruct n; split; (discriminate || reflexivity). }
  destruct (analogical_structural_similarity
              (reasoning_context "kb" (mkParamValues None None None None))
              0 world_three_proven Hunit)
    as (r & w' & s1 & s2 & m & Hrun & _).
  exists r, w'. split; [exact Hrun|].
  vm_compute in Hrun. injection Hrun as <- _. reflexivity.
Defined.

(** *** Probabilistic reasoning *)

(** X13: whatever the input, probabilistic reasoning returns two facts
    and two inferences, and both uncertainty metrics are probabilities:
    [totalUncertainty] lies in [(0, 1]] and [avgConfidence] in [[0, 1)]. *)
Theorem probabilistic_metrics_bounded
        (context : Context) (itemIndex : nat) (w : World) :
  unit_draws w ->
  exists r w' u c,
    performProbabilisticReasoning context itemIndex w = Returned r w' /\
    List.length (Probabilistic.probabilisticFacts r) = 2%nat /\
    List.length (Probabilistic.inferences r) = 2%nat /\
    UncertaintyMetrics.totalUncertainty (Probabilistic.uncertaintyMetrics r) = Fin u /\
    UncertaintyMetrics.avgConfidence (Probabilistic.uncertaintyMetrics r) = Fin c /\
    0 < u /\ u <= 1 /\ 0 <= c /\ c < 1.
Proof.
  intros Hunit.
  unfold performProbabilisticReasoning, bind, Math_random, Date_now, ret.
  cbn [draws cursor clock].
  set (p1 := draws w (S (S (cursor w)))).
  set (p2 := draws w (S (S (S (cursor w))))).
  destruct (Hunit (S (S (cursor w)))) as [H1 H1'].
  destruct (Hunit (S (S (S (cursor w))))) as [H2 H2'].
  fold p1 in H1, H1'. fold p2 in H2, H2'.
  eexists; eexists; eexists; eexists.
  split; [reflexivity|].
  cbn [Probabilistic.probabilisticFacts Probabilistic.inferences
       Probabilistic.uncertaintyMetrics UncertaintyMetrics.totalUncertainty
       UncertaintyMetrics.avgConfidence Inference.probability List.length
       fold_left num_add num_sub num_neg num_div_length].
  split; [reflexivity|]. split; [reflexivity|].
  split; [reflexivity|]. split; [reflexivity|].
  change (inject_Z (Z.of_nat 2)) with 2.
  assert (Hu : (0 + (1 + - p1) + (1 + - p2)) / 2 == (2 - p1 - p2) * (1 # 2)) by field.
  assert (Hc : (0 + p1 + p2) / 2 == (p1 + p2) * (1 # 2)) by field.
  rewrite Hu, Hc. repeat split; lra.
Qed.

(** X13 at draws [0.25]: total uncertainty [0.75], average confidence
    [0.25]. *)
Lemma probabilistic_metrics_bounded_witness :
  exists r w' u c,
    performProbabilisticReasoning
      (reasoning_context "kb" (mkParamValues None None None None))
      0 (world_const (1 # 4) 0) = Returned r w' /\
    UncertaintyMetrics.totalUncertainty (Probabilistic.uncertaintyMetrics r) = Fin u /\
    UncertaintyMetrics.avgConfidence (Probabilistic.uncertaintyMetrics r) = Fin c /\
    u == 3 # 4 /\ c == 1 # 4.
Proof.
  assert (Hunit : unit_draws (world_const (1 # 4) 0)).
  { intros n. split; [discriminate|reflexivity]. }
  destruct (probabilistic_metrics_bounded
              (reasoning_context "kb" (mkParamValues None None None None))
              0 (world_const (1 # 4) 0) Hunit)
    as (r & w' & u & c & Hrun & _ & _ & Hu & Hc & _).
  exists r, w', u, c. split; [exact Hrun|].
  split; [exact Hu|]. split; [exact Hc|].
  vm_compute in Hrun. injection Hrun as <- _.
  simpl in Hu, Hc. injection Hu as <-. injection Hc as <-.
  split; reflexivity.
Defined.

(** *** execute *)
















End ReasoningEngineFurther.
